(** * whisper_client.py: a shallow embedding and its verified properties

    The client sends one audio file to a whisper.cpp server and renders the
    answer.  The embedding follows [src/whisper_client.py] function by
    function.  Python values are modelled as follows.

    - [str] is [string]; a character stands for the code point of the same
      number, so the strings of the model are the Python strings over code
      points below 256.
    - [float] is the primitive binary64 [float]; [int] is [Z].
    - A parsed JSON document is a [JValue]; a [dict] is an association list
      read from the front, which keeps the insertion order of the keys (a
      list without repeated keys is the [dict] of its items).
    - [response.json()] belongs to httpx: a [Response] carries what the call
      gives for its body, a document or the exception it raises.
    - A raised exception is the [Raise] outcome of a [result].
    - What the terminal, the file system, the transcoder and the server do is
      recorded as a trace of [Effect]s; what they answer, a value or an
      exception, is read from an [Env].
    - [console.print] belongs to rich: a [Console] says which strings rich
      renders as console markup; a panel whose body is a [str], a title and
      a table cell are markup, and the print raises [MarkupError] when one
      of them is rejected.  A print that raises shows nothing.  The terminal
      itself is taken to accept whatever is written to it.
    - [main] starts from the [Namespace] that [parse_args] returns; the
      exits of argparse itself are not part of the embedding.  The limits of
      the interpreter (memory, recursion depth) are not modelled either,
      except that a library call may raise any exception. *)

From Stdlib Require Import ZArith List String Ascii Bool Lia.
From Stdlib Require Import DecimalString Floats.
Import ListNotations.

Set Warnings "-inexact-float,-register-all".

Open Scope string_scope.
Open Scope Z_scope.

(** ** The Python runtime the program relies on *)

Module Py.

(** The exception classes that occur in the program and in the libraries
    it calls.  [JSONDecodeError] and [UnicodeDecodeError] derive from
    [ValueError]; [RequestError] stands for [httpx.RequestError] and the
    classes that derive from it, and carries [str(exc)]; [Other] is an
    exception of any further class, none of which a handler of the program
    catches. *)
Inductive Exc : Type :=
| TypeError
| ValueError
| OverflowError
| AttributeError
| JSONDecodeError
| UnicodeDecodeError
| RuntimeError
| OSError
| MarkupError
| InvalidURL
| RequestError (msg : string)
| Other (cls : string).

Inductive result (A : Type) : Type :=
| Ok (a : A)
| Raise (e : Exc).
Arguments Ok {A} a.
Arguments Raise {A} e.

Definition bind {A B : Type} (r : result A) (k : A -> result B) : result B :=
  match r with
  | Ok a => k a
  | Raise e => Raise e
  end.

Definition code (c : ascii) : Z := Z.of_N (N_of_ascii c).
Definition chr (z : Z) : ascii := ascii_of_N (Z.to_N z).

(** [str.isspace] on one character: the Unicode white space below 256. *)
Definition isspace (c : ascii) : bool :=
  let n := code c in
  ((9 <=? n) && (n <=? 13)) || ((28 <=? n) && (n <=? 32))
  || (n =? 133) || (n =? 160).

Fixpoint lstrip (s : string) : string :=
  match s with
  | String c s' => if isspace c then lstrip s' else s
  | EmptyString => EmptyString
  end.

Fixpoint rstrip (s : string) : string :=
  match s with
  | String c s' =>
      match rstrip s' with
      | EmptyString => if isspace c then EmptyString else String c EmptyString
      | r => String c r
      end
  | EmptyString => EmptyString
  end.

(** [str.strip()] *)
Definition strip (s : string) : string := rstrip (lstrip s).

(** [str.lower()]: the cased letters below 256 are A-Z and the Latin-1
    capitals 0xC0-0xDE without the multiplication sign 0xD7. *)
Definition lower_char (c : ascii) : ascii :=
  let n := code c in
  if ((65 <=? n) && (n <=? 90))
     || ((192 <=? n) && (n <=? 222) && negb (n =? 215))
  then chr (n + 32) else c.

Fixpoint lower (s : string) : string :=
  match s with
  | String c s' => String (lower_char c) (lower s')
  | EmptyString => EmptyString
  end.

(** [str.startswith] *)
Definition startswith (s p : string) : bool := String.prefix p s.

(** [str(n)] for an [int]. *)
Definition str_of_int (z : Z) : string := NilZero.string_of_int (Z.to_int z).

Fixpoint zeros (n : nat) : string :=
  match n with
  | O => EmptyString
  | S n' => String "0" (zeros n')
  end.

Definition zfill (width : nat) (digits : string) : string :=
  zeros (width - String.length digits) ++ digits.

(** [format(z, "0<width>d")]: zero padding to [width] characters, the sign
    of a negative number counted among them. *)
Definition format_0d (width : nat) (z : Z) : string :=
  if z <? 0 then "-" ++ zfill (width - 1) (str_of_int (- z))
  else zfill width (str_of_int z).

(** *** Floats *)

(** The double nearest to [p / q], ties to even, for [0 <= p] and [0 < q].
    The quotient is computed with at least 64 significant bits and a
    sticky last bit, then rounded once. *)
Definition round_ratio (neg : bool) (p q : Z) : spec_float :=
  if p =? 0 then S754_zero neg
  else
    let sh := Z.max 0 (Z.log2_up q - Z.log2 p + 64) in
    let n := p * 2 ^ sh in
    let m := 2 * (n / q) + (if n mod q =? 0 then 0 else 1) in
    binary_normalize prec emax (if neg then - m else m) (- sh - 1) neg.

(** The double nearest to [m * 10 ^ e], for [0 <= m]. *)
Definition float_of_decimal (neg : bool) (m e : Z) : float :=
  SF2Prim (if 0 <=? e then round_ratio neg (m * 10 ^ e) 1
           else round_ratio neg m (10 ^ (- e))).

(** [float(n)] for an [int]: the nearest double, [OverflowError] when it
    is out of range. *)
Definition float_of_int (z : Z) : result float :=
  match binary_normalize prec emax z 0 false with
  | S754_infinity _ => Raise OverflowError
  | sf => Ok (SF2Prim sf)
  end.

Definition is_digit (c : ascii) : bool := (48 <=? code c) && (code c <=? 57).

Fixpoint take_digits (l : list ascii) : list ascii * list ascii :=
  match l with
  | c :: l' =>
      if is_digit c then let (ds, r) := take_digits l' in (c :: ds, r)
      else ([], l)
  | [] => ([], [])
  end.

Definition Z_of_digits (ds : list ascii) : Z :=
  fold_left (fun acc c => 10 * acc + (code c - 48)) ds 0.

(** The white space of C's [isspace] in the C locale, which is what
    [float] strips from a string. *)
Definition c_isspace (c : ascii) : bool :=
  ((9 <=? code c) && (code c <=? 13)) || (code c =? 32).

(** A non-ASCII space becomes a blank and any other non-ASCII character a
    question mark before the string is parsed. *)
Definition to_ascii_char (c : ascii) : ascii :=
  if code c <? 127 then c
  else if isspace c then " "%char else "?"%char.

Fixpoint drop_space (l : list ascii) : list ascii :=
  match l with
  | c :: l' => if c_isspace c then drop_space l' else l
  | [] => []
  end.

(** Underscores are allowed between two digits only; they are removed.
    [prev] is the character before the head of [l]. *)
Fixpoint strip_underscores (prev : ascii) (l : list ascii)
  : option (list ascii) :=
  match l with
  | [] => if Ascii.eqb prev "_" then None else Some []
  | c :: l' =>
      if Ascii.eqb c "_" then
        if is_digit prev then strip_underscores c l' else None
      else if Ascii.eqb prev "_" && negb (is_digit c) then None
      else option_map (cons c) (strip_underscores c l')
  end.

Definition take_sign (l : list ascii) : bool * list ascii :=
  match l with
  | "-"%char :: l' => (true, l')
  | "+"%char :: l' => (false, l')
  | _ => (false, l)
  end.

(** The exponent part [e[+-]digits]; it is consumed only when it has a
    digit. *)
Definition take_exponent (l : list ascii) : Z * list ascii :=
  match l with
  | c :: l' =>
      if Ascii.eqb (lower_char c) "e" then
        let (neg, l'') := take_sign l' in
        match take_digits l'' with
        | ([], _) => (0, l)
        | (ds, r) => ((if neg then - Z_of_digits ds else Z_of_digits ds), r)
        end
      else (0, l)
  | [] => (0, l)
  end.

Definition lower_list (l : list ascii) : string :=
  lower (string_of_list_ascii l).

(** A signed decimal literal, or a signed [inf], [infinity] or [nan] in
    any case; nothing may follow. *)
Definition parse_float (l : list ascii) : option float :=
  let (neg, body) := take_sign l in
  let (ip, r1) := take_digits body in
  let (fp, r2) :=
    match r1 with
    | "."%char :: r => take_digits r
    | _ => ([], r1)
    end in
  match (ip ++ fp)%list with
  | [] =>
      let w := lower_list body in
      if String.eqb w "inf" || String.eqb w "infinity"
      then Some (if neg then neg_infinity else infinity)
      else if String.eqb w "nan" then Some nan
      else None
  | ds =>
      match take_exponent r2 with
      | (e, []) =>
          Some (float_of_decimal neg (Z_of_digits ds)
                  (e - Z.of_nat (List.length fp)))
      | _ => None
      end
  end.

(** [float(s)] for a [str]. *)
Definition float_of_str (s : string) : result float :=
  let l := map to_ascii_char (list_ascii_of_string s) in
  let l := rev (drop_space (rev (drop_space l))) in
  let stripped :=
    if existsb (Ascii.eqb "_") l then strip_underscores Ascii.zero l else Some l in
  match option_map parse_float stripped with
  | Some (Some f) => Ok f
  | _ => Raise ValueError
  end.

(** [round(x)] for a [float]: the nearest [int], ties to even. *)
Definition round_half_even (m e : Z) : Z :=
  if 0 <=? e then m * 2 ^ e
  else
    let d := 2 ^ (- e) in
    let q := m / d in
    match 2 * (m mod d) ?= d with
    | Lt => q
    | Gt => q + 1
    | Eq => if Z.even q then q else q + 1
    end.

Definition round (x : float) : result Z :=
  match Prim2SF x with
  | S754_nan => Raise ValueError
  | S754_infinity _ => Raise OverflowError
  | S754_zero _ => Ok 0
  | S754_finite s m e =>
      Ok (if s then - round_half_even (Zpos m) e
          else round_half_even (Zpos m) e)
  end.

End Py.

Import Py.

(** ** JSON documents *)

Inductive JValue : Type :=
| JNull
| JBool (b : bool)
| JInt (n : Z)
| JFloat (x : float)
| JStr (s : string)
| JList (items : list JValue)
| JDict (fields : list (string * JValue)).

(** [key in d] *)
Fixpoint dict_has (d : list (string * JValue)) (key : string) : bool :=
  match d with
  | (k, _) :: d' => if String.eqb k key then true else dict_has d' key
  | [] => false
  end.

(** [d.get(key)]: the value, or [None] (which is also what a JSON [null]
    is) when the key is absent. *)
Fixpoint dict_get (d : list (string * JValue)) (key : string) : JValue :=
  match d with
  | (k, v) :: d' => if String.eqb k key then v else dict_get d' key
  | [] => JNull
  end.

(** Truth value of a Python object ([if v:], [v or w]). *)
Definition truthy (v : JValue) : bool :=
  match v with
  | JNull => false
  | JBool b => b
  | JInt n => negb (n =? 0)
  | JFloat x => negb (PrimFloat.eqb x 0%float)
  | JStr s => negb (String.eqb s "")
  | JList items => match items with [] => false | _ => true end
  | JDict fields => match fields with [] => false | _ => true end
  end.

(** [float(v)] *)
Definition py_float (v : JValue) : result float :=
  match v with
  | JBool b => Ok (if b then 1%float else 0%float)
  | JInt n => float_of_int n
  | JFloat x => Ok x
  | JStr s => float_of_str s
  | JNull | JList _ | JDict _ => Raise TypeError
  end.

(** [v.strip()]: only a [str] has the method. *)
Definition py_strip (v : JValue) : result string :=
  match v with
  | JStr s => Ok (strip s)
  | _ => Raise AttributeError
  end.

(** ** [format_seconds] *)

(** Line 65: [int(round(float(value) * 1000))] *)
Definition convert_ms (value : JValue) : result Z :=
  bind (py_float value) (fun x => Py.round (x * 1000)%float).

(** The handler of line 66 takes [TypeError], [ValueError] and the classes
    that derive from them. *)
Definition format_seconds (value : JValue) : result string :=
  match value with
  | JNull => Ok "-"
  | _ =>
      match convert_ms value with
      | Raise TypeError | Raise ValueError
      | Raise JSONDecodeError | Raise UnicodeDecodeError => Ok "-"
      | Raise e => Raise e
      | Ok total_ms =>
          let hours := total_ms / (3600 * 1000) in
          let rem := total_ms mod (3600 * 1000) in
          let minutes := rem / (60 * 1000) in
          let rem := rem mod (60 * 1000) in
          let seconds := rem / 1000 in
          let millis := rem mod 1000 in
          if negb (hours =? 0) then
            Ok (format_0d 2 hours ++ ":" ++ format_0d 2 minutes ++ ":"
                ++ format_0d 2 seconds ++ "." ++ format_0d 3 millis)
          else
            Ok (format_0d 2 minutes ++ ":" ++ format_0d 2 seconds ++ "."
                ++ format_0d 3 millis)
      end
  end.

(** ** Effects

    Everything the program does to the outside is appended to a trace; a
    computation is the trace it leaves and how it ends. *)

(** A [pathlib.Path]: the text up to and including the last separator, and
    the final component. *)
Record Path : Type := { location : string; name : string }.

(** [str(path)] *)
Definition path_str (p : Path) : string := location p ++ name p.

Inductive PanelBody : Type :=
| Markup (s : string)
| RichText (s : string)
| Summary (status_code : Z) (reason_phrase : string) (elapsed : float)
| RichJSON (data : JValue).

Inductive Renderable : Type :=
| Panel (body : PanelBody) (title : string)
| Table (title : string) (columns : list string) (rows : list (list string)).

(** [str(x)] of a [float] is kept symbolic. *)
Inductive FormValue : Type :=
| FloatRepr (x : float)
| Plain (s : string).

(** One entry of [files]: the field name, then the file name, the opened
    path and the content type. *)
Record FilePart : Type :=
  { field : string; filename : string; handle : Path; content_type : string }.

Inductive Effect : Type :=
| Print (r : Renderable)
| MkTemp (dir : string)
| Cleanup (dir : string)
| Run (cmd : list string)
| Open (p : Path)
| Close (p : Path)
| Post (url : string) (data : list (string * FormValue)) (files : FilePart)
       (timeout : float).

Definition M (A : Type) : Type := list Effect * result A.

Definition ret {A : Type} (a : A) : M A := ([], Ok a).
Definition raise {A : Type} (e : Exc) : M A := ([], Raise e).
Definition emit (e : Effect) : M unit := ([e], Ok tt).
Definition lift {A : Type} (r : result A) : M A := ([], r).

Definition mbind {A B : Type} (m : M A) (k : A -> M B) : M B :=
  match m with
  | (t, Ok a) => let (t', r) := k a in ((t ++ t')%list, r)
  | (t, Raise e) => (t, Raise e)
  end.

(** [try: body finally: cleanup] *)
Definition try_finally {A : Type} (body : M A) (cleanup : M unit) : M A :=
  let (t, r) := body in
  match cleanup with
  | (t', Ok _) => ((t ++ t')%list, r)
  | (t', Raise e) => ((t ++ t')%list, Raise e)
  end.

(** [with resource: body], for a resource whose release [close] cannot
    fail. *)
Definition with_closing {A : Type} (close : Effect) (body : M A) : M A :=
  try_finally body (emit close).

Declare Scope m_scope.
Delimit Scope m_scope with m.
Notation "x <- m ;; k" := (mbind m (fun x => k))
  (at level 61, m at next level, right associativity) : m_scope.
Notation "m ;;; k" := (mbind m (fun _ => k))
  (at level 61, right associativity) : m_scope.
Open Scope m_scope.

Definition trace {A : Type} (m : M A) : list Effect := fst m.
Definition outcome {A : Type} (m : M A) : result A := snd m.

(** ** The console *)

(** Whether a string holds an opening bracket. *)
Definition has_bracket (s : string) : bool :=
  existsb (Ascii.eqb "[") (list_ascii_of_string s).

(** A [rich.console.Console], as far as the program depends on it: which
    strings rich renders as console markup.  A closing tag that closes
    nothing, as in [[/x]], is rejected with [MarkupError]. *)
Record Console : Type :=
  { markup : string -> bool;
    (** a string without an opening bracket holds no tag and is rendered as
        it is *)
    markup_plain : forall s, has_bracket s = false -> markup s = true }.

(** The strings of a renderable that are console markup: a body given as
    a [str], the title of a panel, and the title, the headers and the cells
    of a table.  A [Text] and a [JSON] are not. *)
Definition markup_texts (r : Renderable) : list string :=
  match r with
  | Panel (Markup s) title => [s; title]
  | Panel _ title => [title]
  | Table title columns rows => title :: (columns ++ List.concat rows)%list
  end.

(** Whether [console.print] renders [r]. *)
Definition renders (console : Console) (r : Renderable) : bool :=
  forallb (markup console) (markup_texts r).

(** [console.print]: nothing is shown when the rendering raises. *)
Definition console_print (console : Console) (r : Renderable) : M unit :=
  if renders console r then emit (Print r) else raise MarkupError.

(** ** [extract_result] *)

Definition extract_result (payload : JValue) : JValue :=
  match payload with
  | JDict d =>
      if dict_has d "text" || dict_has d "segments" then payload
      else
        match dict_get d "result" with
        | JDict r => JDict r
        | _ => payload
        end
  | _ => payload
  end.

(** ** [build_segments_table] *)

(** [v.get(key)]: only a [dict] has the method. *)
Definition py_get (v : JValue) (key : string) : result JValue :=
  match v with
  | JDict d => Ok (dict_get d key)
  | _ => Raise AttributeError
  end.

(** [v or ""] *)
Definition or_empty (v : JValue) : JValue := if truthy v then v else JStr "".

(** The body of the loop: the row of one segment. *)
Definition segment_row (idx : Z) (segment : JValue) : result (list string) :=
  bind (py_get segment "start") (fun s =>
  bind (format_seconds s) (fun start =>
  bind (py_get segment "end") (fun e =>
  bind (format_seconds e) (fun end_ =>
  bind (py_get segment "text") (fun t =>
  bind (py_strip (or_empty t)) (fun text =>
  Ok [str_of_int idx; start; end_; text])))))).

(** [for idx, segment in enumerate(segments, start=idx)] *)
Fixpoint segment_rows (idx : Z) (segments : list JValue)
  : result (list (list string)) :=
  match segments with
  | segment :: rest =>
      bind (segment_row idx segment) (fun row =>
      bind (segment_rows (idx + 1) rest) (fun rows => Ok (row :: rows)))
  | [] => Ok []
  end.

Definition build_segments_table (segments : list JValue) : result Renderable :=
  bind (segment_rows 1 segments) (fun rows =>
  Ok (Table "Segments" ["#"; "Start"; "End"; "Text"] rows)).

(** ** [print_result] *)

(** An [httpx.Response].  [headers_content_type] is what
    [headers.get("content-type")] finds, and [json] what [response.json()]
    does: it returns the decoded document or raises, with
    [json.JSONDecodeError] for a body that is not JSON and with another
    exception otherwise ([UnicodeDecodeError] for bytes that are not UTF-8,
    [RecursionError] for a document nested too deep). *)
Record Response : Type :=
  { status_code : Z;
    reason_phrase : string;
    headers_content_type : option string;
    text : string;
    json : result JValue }.

(** [response.json()] *)
Definition response_json (response : Response) : result JValue :=
  json response.

(** [400 <= status_code <= 599] *)
Definition is_error (response : Response) : bool :=
  (400 <=? status_code response) && (status_code response <=? 599).

(** [headers.get("content-type", "").startswith("application/json")] *)
Definition declared_json (response : Response) : bool :=
  startswith
    (match headers_content_type response with
     | Some v => v
     | None => ""
     end)
    "application/json".

(** Lines 107-113: the payload the renderer works on.  The handler of
    line 112 takes [json.JSONDecodeError] only. *)
Definition read_payload (response : Response) : result JValue :=
  if declared_json response then response_json response
  else
    match response_json response with
    | Raise JSONDecodeError => Ok (JStr (text response))
    | r => r
    end.

Definition summary_panel (response : Response) (elapsed : float) : Renderable :=
  Panel (Summary (status_code response) (reason_phrase response) elapsed)
    "Request Summary".

Definition raw_json (payload : JValue) : Renderable :=
  Panel (RichJSON payload) "Response JSON".

(** Lines 121-129: the rendering of a result that is a [dict]. *)
Definition render_result (console : Console) (payload : JValue)
    (result : list (string * JValue)) : M unit :=
  let text := dict_get result "text" in
  (if truthy text then
     stripped <- lift (py_strip text) ;;
     console_print console (Panel (RichText stripped) "Transcript")
   else ret tt) ;;;
  match dict_get result "segments" with
  | JList (segment :: rest) =>
      table <- lift (build_segments_table (segment :: rest)) ;;
      console_print console table
  | _ => console_print console (raw_json payload)
  end.

(** Lines 119-129: what follows the test for a plain string. *)
Definition render_payload (console : Console) (payload : JValue) : M unit :=
  match extract_result payload with
  | JDict result => render_result console payload result
  | _ => console_print console (raw_json payload)
  end.

Definition print_result (console : Console) (response : Response)
    (elapsed : float) : M unit :=
  console_print console (summary_panel response elapsed) ;;;
  payload <- lift (read_payload response) ;;
  match payload with
  | JStr s => console_print console (Panel (Markup (strip s)) "Transcript")
  | _ => render_payload console payload
  end.

(** ** Paths *)

(** [s.rfind(c)], [None] standing for -1. *)
Fixpoint rfind (c : ascii) (s : string) : option nat :=
  match s with
  | String a s' =>
      match rfind c s' with
      | Some i => Some (S i)
      | None => if Ascii.eqb a c then Some O else None
      end
  | EmptyString => None
  end.

(** The position of the dot that starts the suffix of a file name:
    [0 < i < len(name) - 1] for [i = name.rfind('.')]. *)
Definition suffix_start (name : string) : option nat :=
  match rfind "." name with
  | Some i =>
      if (0 <? i)%nat && (i <? String.length name - 1)%nat then Some i
      else None
  | None => None
  end.

(** [path.suffix] *)
Definition suffix (p : Path) : string :=
  match suffix_start (name p) with
  | Some i => substring i (String.length (name p) - i) (name p)
  | None => ""
  end.

(** [path.stem] *)
Definition stem (p : Path) : string :=
  match suffix_start (name p) with
  | Some i => substring 0 i (name p)
  | None => name p
  end.

(** [Path(directory) / component], for a component free of separators. *)
Definition path_in (directory component : string) : Path :=
  {| location := directory ++ "/"; name := component |}.

(** [path.suffix.lower() == ".wav"] *)
Definition is_wav (p : Path) : bool := String.eqb (lower (suffix p)) ".wav".

(** ** The command line and the environment *)

(** The [argparse.Namespace] that [parse_args] returns. *)
Record Args : Type :=
  { url : string;
    file : Path;
    response_format : string;
    temperature : float;
    temperature_inc : float;
    language : option string;
    prompt : option string;
    no_convert : bool;
    timeout : float }.

(** What the outside answers during one run.  A call that returns gives
    [Ok]; a call that raises gives [Raise]. *)
Record Env : Type :=
  { (** the [Console()] that [main] creates *)
    new_console : Console;
    (** [path.expanduser()]; it raises [RuntimeError] when the home
        directory of the user named after the tilde is not known *)
    expanduser : Path -> result Path;
    (** [path.is_file()]; it raises [OSError] when the file system does not
        let the path be examined *)
    is_file : Path -> result bool;
    (** a path whose final component is empty is the root or the current
        directory, never a regular file *)
    is_file_named : forall p, is_file p = Ok true -> name p <> "";
    (** [shutil.which] *)
    which : string -> option string;
    (** [tempfile.TemporaryDirectory()]: the name of the directory that is
        created *)
    mkdtemp : result string;
    (** [subprocess.run]: the return code and the captured standard error
        of a process that ran *)
    run : list string -> result (Z * string);
    (** whether [path.open("rb")] succeeds; it raises [OSError] otherwise *)
    can_open : Path -> bool;
    (** [client.post], with the client of line 238: the response, or the
        exception that is raised, an [httpx.RequestError] or another one
        ([httpx.InvalidURL] for a URL that cannot be parsed) *)
    post : string -> list (string * FormValue) -> FilePart -> float
           -> result Response;
    (** the two readings of [time.perf_counter()] *)
    perf_counter : float * float }.

Definition nl : string := String (chr 10) "".

(** [v] as a condition, for an optional string. *)
Definition nonempty (v : option string) : bool :=
  match v with
  | Some s => negb (String.eqb s "")
  | None => false
  end.

Definition get_or_empty (v : option string) : string :=
  match v with
  | Some s => s
  | None => ""
  end.

(** ** [prepare_audio] *)

Definition unsupported_format_panel : Renderable :=
  Panel
    (Markup "Input is not WAV. Enable local conversion or start the server with --convert.")
    "Unsupported Format".

Definition missing_dependency_panel : Renderable :=
  Panel
    (Markup "ffmpeg not found in PATH. Install ffmpeg or run whisper-server with --convert.")
    "Missing Dependency".

Definition conversion_error_panel (stderr : string) : Renderable :=
  Panel
    (Markup ("ffmpeg failed to convert the input." ++ nl ++ nl ++ strip stderr))
    "Conversion Error".

Definition preparing_audio_panel (output_path : Path) : Renderable :=
  Panel
    (Markup ("Converted to WAV for upload:" ++ nl ++ path_str output_path))
    "Preparing Audio".

Definition ffmpeg_cmd (ffmpeg : string) (file_path output_path : Path)
  : list string :=
  [ffmpeg; "-hide_banner"; "-loglevel"; "error"; "-y"; "-i";
   path_str file_path; "-ar"; "16000"; "-ac"; "1"; "-c:a"; "pcm_s16le";
   path_str output_path].

(** Line 159: where the converted file goes, in the temporary directory
    named [temp_dir]. *)
Definition converted_path (temp_dir : string) (file_path : Path) : Path :=
  path_in temp_dir (stem file_path ++ ".wav").

(** Lines 160-175: the command that converts [file_path]. *)
Definition convert_cmd (env : Env) (temp_dir : string) (file_path : Path)
  : list string :=
  ffmpeg_cmd (get_or_empty (which env "ffmpeg")) file_path
    (converted_path temp_dir file_path).

(** The second component of the answer is the name of the temporary
    directory that is still in use. *)
Definition prepare_audio (env : Env) (console : Console) (file_path : Path)
    (allow_convert : bool) : M (option Path * option string) :=
  if is_wav file_path then ret (Some file_path, None)
  else if negb allow_convert then
    console_print console unsupported_format_panel ;;;
    ret (None, None)
  else if negb (nonempty (which env "ffmpeg")) then
    console_print console missing_dependency_panel ;;;
    ret (None, None)
  else
    temp_dir <- lift (mkdtemp env) ;;
    emit (MkTemp temp_dir) ;;;
    let output_path := converted_path temp_dir file_path in
    let cmd := convert_cmd env temp_dir file_path in
    emit (Run cmd) ;;;
    result <- lift (run env cmd) ;;
    let (returncode, stderr) := result in
    if negb (returncode =? 0) then
      console_print console (conversion_error_panel stderr) ;;;
      emit (Cleanup temp_dir) ;;;
      ret (None, None)
    else
      console_print console (preparing_audio_panel output_path) ;;;
      ret (Some output_path, Some temp_dir).

(** ** [main] *)

Definition file_not_found_panel (file_path : Path) : Renderable :=
  Panel (Markup ("[red]File not found:[/red]" ++ nl ++ path_str file_path))
    "Error".

Definition whisper_asr_panel (args : Args) (file_path upload_path : Path)
  : Renderable :=
  Panel
    (Markup ("Source: " ++ path_str file_path ++ nl
             ++ "Upload: " ++ path_str upload_path ++ nl
             ++ "URL: " ++ url args ++ nl
             ++ "Format: " ++ response_format args))
    "Whisper ASR".

Definition network_error_panel (msg : string) : Renderable :=
  Panel (Markup ("[red]Request failed:[/red]" ++ nl ++ msg)) "Network Error".

Definition http_error_panel (response : Response) : Renderable :=
  Panel
    (Markup (if String.eqb (strip (text response)) ""
             then "(empty response body)" else strip (text response)))
    ("HTTP " ++ str_of_int (status_code response) ++ " "
     ++ reason_phrase response).

(** Lines 216-224: the form fields of the request. *)
Definition form_data (args : Args) : list (string * FormValue) :=
  ([("temperature", FloatRepr (temperature args));
    ("temperature_inc", FloatRepr (temperature_inc args));
    ("response_format", Plain (response_format args))]
   ++ (if nonempty (language args)
       then [("language", Plain (get_or_empty (language args)))] else [])
   ++ (if nonempty (prompt args)
       then [("prompt", Plain (get_or_empty (prompt args)))] else []))%list.

(** [temp_dir.cleanup()] when there is a temporary directory; the removal
    of the directory is taken to succeed. *)
Definition cleanup_temp (temp_dir : option string) : M unit :=
  match temp_dir with
  | Some d => emit (Cleanup d)
  | None => ret tt
  end.

(** Line 237: the entry of [files]. *)
Definition upload_part (upload_path : Path) (content_type : string)
  : FilePart :=
  {| field := "file"; filename := name upload_path; handle := upload_path;
     content_type := content_type |}.

(** Line 234 *)
Definition upload_content_type (upload_path : Path) : string :=
  if is_wav upload_path then "audio/wav" else "application/octet-stream".

(** Lines 236-241: the body of the [try]. *)
Definition send (env : Env) (args : Args) (upload_path : Path)
    (data : list (string * FormValue)) (content_type : string)
  : M (Response * float) :=
  if can_open env upload_path then
    emit (Open upload_path) ;;;
    with_closing (Close upload_path)
      (let files := upload_part upload_path content_type in
       emit (Post (url args) data files (timeout args)) ;;;
       response <- lift (post env (url args) data files (timeout args)) ;;
       ret (response,
            (snd (perf_counter env) - fst (perf_counter env))%float))
  else raise OSError.

(** Lines 235-249: the [try] statement.  [inl code] is the [return] of the
    handler, [inr] the response with which the function goes on.  The
    handler takes [httpx.RequestError] only; what it raises itself goes
    through the [finally] clause like any other exception. *)
Definition request (env : Env) (console : Console) (args : Args)
    (upload_path : Path) (temp_dir : option string)
    (data : list (string * FormValue)) (content_type : string)
  : M (Z + Response * float) :=
  try_finally
    (match send env args upload_path data content_type with
     | (t, Ok r) => (t, Ok (inr r))
     | (t, Raise (RequestError msg)) =>
         (t, Ok tt) ;;;
         console_print console (network_error_panel msg) ;;;
         ret (inl 1)
     | (t, Raise e) => (t, Raise e)
     end)
    (cleanup_temp temp_dir).

(** Lines 216-263: what [main] does with the prepared audio. *)
Definition transcribe (env : Env) (console : Console) (args : Args)
    (file_path upload_path : Path) (temp_dir : option string) : M Z :=
  let data := form_data args in
  console_print console (whisper_asr_panel args file_path upload_path) ;;;
  let content_type := upload_content_type upload_path in
  sent <- request env console args upload_path temp_dir data content_type ;;
  match sent with
  | inl code => ret code
  | inr (response, elapsed) =>
      if is_error response then
        console_print console (http_error_panel response) ;;;
        ret 1
      else
        print_result console response elapsed ;;;
        ret 0
  end.

Definition main (args : Args) (env : Env) : M Z :=
  let console := new_console env in
  file_path <- lift (expanduser env (file args)) ;;
  found <- lift (is_file env file_path) ;;
  if negb found then
    console_print console (file_not_found_panel file_path) ;;;
    ret 2
  else
    prepared <- prepare_audio env console file_path (negb (no_convert args)) ;;
    match prepared with
    | (None, _) => ret 2
    | (Some upload_path, temp_dir) =>
        transcribe env console args file_path upload_path temp_dir
    end.

(** [raise SystemExit(main())]: the exit status of the process, which is 1
    when an exception reaches the top. *)
Definition exit_status (m : M Z) : Z :=
  match outcome m with
  | Ok code => code
  | Raise _ => 1
  end.

(** * Vocabulary of the statements *)

(** The string for a number of milliseconds: hours, minutes, seconds and
    milliseconds, the hour field only when it is not zero. *)
Definition clock (ms : Z) : string :=
  let hours := ms / 3600000 in
  let minutes := ms mod 3600000 / 60000 in
  let seconds := ms mod 3600000 mod 60000 / 1000 in
  let millis := ms mod 3600000 mod 60000 mod 1000 in
  let tail :=
    format_0d 2 minutes ++ ":" ++ format_0d 2 seconds ++ "."
    ++ format_0d 3 millis in
  if hours =? 0 then tail else format_0d 2 hours ++ ":" ++ tail.

(** What the time column shows for a value that does not overflow. *)
Definition time_text (value : JValue) : string :=
  match convert_ms value with
  | Ok ms => clock ms
  | Raise _ => "-"
  end.

Definition overflows (value : JValue) : bool :=
  match convert_ms value with
  | Raise OverflowError => true
  | _ => false
  end.

Definition is_str (v : JValue) : bool :=
  match v with
  | JStr _ => true
  | _ => false
  end.

Definition is_dict (v : JValue) : bool :=
  match v with
  | JDict _ => true
  | _ => false
  end.

(** A value that is falsy or a string: what [(v or "").strip()] and
    [if v: v.strip()] accept. *)
Definition text_like (v : JValue) : bool := negb (truthy v) || is_str v.

(** The text cell of a row: the stripped text, blank when there is none. *)
Definition text_cell (v : JValue) : string :=
  match or_empty v with
  | JStr s => strip s
  | _ => ""
  end.

(** A segment the table can show: an object whose times the formatter
    accepts and whose text is falsy or a string. *)
Definition segment_ok (segment : JValue) : bool :=
  match segment with
  | JDict d =>
      negb (overflows (dict_get d "start"))
      && negb (overflows (dict_get d "end"))
      && text_like (dict_get d "text")
  | _ => false
  end.

(** The row of the segment numbered [idx]. *)
Definition row_of (numbered : nat * JValue) : list string :=
  let (idx, segment) := numbered in
  match segment with
  | JDict d =>
      [str_of_int (Z.of_nat idx); time_text (dict_get d "start");
       time_text (dict_get d "end"); text_cell (dict_get d "text")]
  | _ => []
  end.

(** One row per segment, numbered from 1. *)
Definition rows_of (segments : list JValue) : list (list string) :=
  map row_of (combine (seq 1 (List.length segments)) segments).

Definition segments_table (segments : list JValue) : Renderable :=
  Table "Segments" ["#"; "Start"; "End"; "Text"] (rows_of segments).

(** The transcript panel of a result, when its text is truthy. *)
Definition transcript_of (result : list (string * JValue)) : list Effect :=
  match dict_get result "text" with
  | JStr s =>
      if String.eqb s "" then []
      else [Print (Panel (RichText (strip s)) "Transcript")]
  | _ => []
  end.

(** A double quote, and a word between double quotes. *)
Definition dq : string := String (chr 34) "".
Definition q (s : string) : string := dq ++ s ++ dq.

(** The text cell of a segment. *)
Definition segment_text (segment : JValue) : string :=
  match segment with
  | JDict d => text_cell (dict_get d "text")
  | _ => ""
  end.

(** A response with status 200 and a JSON content type, with the text of
    its body and the document the text decodes to. *)
Definition json_response (body : string) (payload : JValue) : Response :=
  {| status_code := 200; reason_phrase := "OK";
     headers_content_type := Some "application/json";
     text := body; json := Ok payload |}.

(** Whether a trace holds an HTTP request. *)
Definition is_post (e : Effect) : bool :=
  match e with
  | Post _ _ _ _ => true
  | _ => false
  end.

Definition is_print (e : Effect) : bool :=
  match e with
  | Print _ => true
  | _ => false
  end.


(** The temporary directories that are in use after a trace, given those
    in use before it. *)
Fixpoint live_after (live : list string) (t : list Effect) : list string :=
  match t with
  | MkTemp d :: t' => live_after (d :: live) t'
  | Cleanup d :: t' => live_after (remove string_dec d live) t'
  | _ :: t' => live_after live t'
  | [] => live
  end.

Definition live_temps (t : list Effect) : list string := live_after [] t.

(** The keys of a form. *)
Definition keys (data : list (string * FormValue)) : list string :=
  map fst data.

(** The elapsed time that [main] measures. *)
Definition measured (env : Env) : float :=
  (snd (perf_counter env) - fst (perf_counter env))%float.

(** What [temp_dir.cleanup()] in the [finally] clause leaves in the trace. *)
Definition cleanup_trace (temp_dir : option string) : list Effect :=
  match temp_dir with
  | Some d => [Cleanup d]
  | None => []
  end.

(** The request of a run that uploads [upload_path]. *)
Definition the_post (args : Args) (upload_path : Path) : Effect :=
  Post (url args) (form_data args)
    (upload_part upload_path (upload_content_type upload_path))
    (timeout args).

(** What the server answers to that request. *)
Definition answer (env : Env) (args : Args) (upload_path : Path)
  : result Response :=
  post env (url args) (form_data args)
    (upload_part upload_path (upload_content_type upload_path))
    (timeout args).

(** The rest of [main] once the audio is prepared. *)
Definition after_prepare (env : Env) (args : Args) (file_path : Path)
    (prepared : option Path * option string) : M Z :=
  match prepared with
  | (None, _) => ret 2
  | (Some upload_path, temp_dir) =>
      transcribe env (new_console env) args file_path upload_path temp_dir
  end.

(** The bodies that the statements use as examples. *)
Definition hello_payload : JValue :=
  JDict [("text", JStr "hello"); ("segments", JList [])].
Definition hello_body : string :=
  "{" ++ q "text" ++ ": " ++ q "hello" ++ ", " ++ q "segments" ++ ": []}".

Definition nested_payload : JValue :=
  JDict [("result",
          JDict [("text", JStr "hi");
                 ("segments",
                  JList [JDict [("start", JFloat 1.0); ("end", JFloat 2.5);
                                ("text", JStr " a ")]])])].
Definition nested_body : string :=
  "{" ++ q "result" ++ ": {" ++ q "text" ++ ": " ++ q "hi" ++ ", "
  ++ q "segments" ++ ": [{" ++ q "start" ++ ":1.0," ++ q "end" ++ ":2.5,"
  ++ q "text" ++ ":" ++ q " a " ++ "}]}}".

Definition foo_payload : JValue := JDict [("foo", JStr "bar")].
Definition foo_body : string := "{" ++ q "foo" ++ ": " ++ q "bar" ++ "}".

Definition shadowed_payload : JValue :=
  JDict [("text", JStr ""); ("result", JDict [("text", JStr "hi")])].
Definition shadowed_body : string :=
  "{" ++ q "text" ++ ": " ++ q "" ++ ", " ++ q "result" ++ ": {" ++ q "text"
  ++ ": " ++ q "hi" ++ "}}".

(** A body that is not JSON under a JSON content type. *)
Definition undecodable_response : Response :=
  {| status_code := 200; reason_phrase := "OK";
     headers_content_type := Some "application/json";
     text := "upstream unavailable"; json := Raise JSONDecodeError |}.

(** The same body declared as plain text. *)
Definition plain_text_response : Response :=
  {| status_code := 200; reason_phrase := "OK";
     headers_content_type := Some "text/plain; charset=utf-8";
     text := "upstream unavailable"; json := Raise JSONDecodeError |}.

(** A body in Latin-1, declared as such: its text is read, but it is not
    UTF-8, which is what [response.json()] decodes. *)
Definition latin1_response : Response :=
  {| status_code := 200; reason_phrase := "OK";
     headers_content_type := Some "text/plain; charset=latin-1";
     text := "caf" ++ String (chr 233) ""; json := Raise UnicodeDecodeError |}.

(** A result whose text is a number, with one regular segment. *)
Definition numeric_text_payload : JValue :=
  JDict [("text", JInt 5);
         ("segments",
          JList [JDict [("start", JFloat 0.0); ("end", JFloat 1.0);
                        ("text", JStr "a")]])].
Definition numeric_text_body : string :=
  "{" ++ q "text" ++ ": 5, " ++ q "segments" ++ ": [{" ++ q "start"
  ++ ": 0.0, " ++ q "end" ++ ": 1.0, " ++ q "text" ++ ": " ++ q "a" ++ "}]}".

(** A result whose only segment is a number. *)
Definition number_segment_payload : JValue := JDict [("segments", JList [JInt 7])].
Definition number_segment_body : string := "{" ++ q "segments" ++ ": [7]}".

(** A result whose only segment has a number as its text. *)
Definition numeric_segment_payload : JValue :=
  JDict [("segments", JList [JDict [("text", JInt 7)]])].
Definition numeric_segment_body : string :=
  "{" ++ q "segments" ++ ": [{" ++ q "text" ++ ": 7}]}".

(** An example of a console.  It finds the tags the way [rich.markup]
    does: an opening bracket that no odd number of backslashes precedes, a
    lower-case letter or one of [#], [/] and [@], and then anything but an
    opening bracket up to the first closing bracket.  A tag that starts with
    a slash closes the last open tag of its name, or the last open tag when
    it has no name; the markup is rejected when there is none to close.
    Names are compared after stripping and lower-casing, where rich
    normalises styles: the console is an example for the statements below,
    which hold for every [Console]. *)
Definition tag_start (c : ascii) : bool :=
  let n := code c in
  ((97 <=? n) && (n <=? 122)) || (n =? 35) || (n =? 47) || (n =? 64).

(** The name of a tag: what comes before the equals sign. *)
Fixpoint tag_name (tag : string) : string :=
  match tag with
  | String c tag' => if Ascii.eqb c "=" then "" else String c (tag_name tag')
  | EmptyString => ""
  end.

(** The open tags without the last one named [style]. *)
Fixpoint pop_style (style : string) (open : list string)
  : option (list string) :=
  match open with
  | s :: open' =>
      if String.eqb s style then Some open'
      else option_map (cons s) (pop_style style open')
  | [] => None
  end.

(** The open tags after the tag [tag], or [None] when it closes nothing. *)
Definition read_tag (tag : string) (open : list string)
  : option (list string) :=
  match tag_name tag with
  | String "/"%char style =>
      if String.eqb (strip style) "" then
        match open with
        | _ :: open' => Some open'
        | [] => None
        end
      else pop_style (lower (strip style)) open
  | style => Some (lower (strip style) :: open)
  end.

(** [odd] says whether an odd number of backslashes comes just before;
    [tag] is the text read since the bracket that may start a tag. *)
Fixpoint scan_markup (s : string) (odd : bool) (tag : option string)
    (open : list string) : bool :=
  match s with
  | String c s' =>
      let odd' := Ascii.eqb c (chr 92) && negb odd in
      if Ascii.eqb c "[" then
        scan_markup s' false (if odd then None else Some "") open
      else
        match tag with
        | None => scan_markup s' odd' None open
        | Some "" =>
            scan_markup s' odd'
              (if tag_start c then Some (String c "") else None) open
        | Some read =>
            if Ascii.eqb c "]" then
              match read_tag read open with
              | Some open' => scan_markup s' false None open'
              | None => false
              end
            else scan_markup s' odd' (Some (read ++ String c "")) open
        end
  | EmptyString => true
  end.

Lemma scan_markup_plain (s : string) :
  forall odd open,
    has_bracket s = false -> scan_markup s odd None open = true.
Proof.
  induction s as [| c s IH]; intros odd open H; [reflexivity |].
  unfold has_bracket in H. cbn [list_ascii_of_string existsb] in H.
  apply orb_false_elim in H.
  destruct H as [Hc Hs]. cbn [scan_markup].
  rewrite Ascii.eqb_sym in Hc. rewrite Hc. now apply IH.
Qed.

Definition tag_console : Console :=
  {| markup := fun s => scan_markup s false None [];
     markup_plain := fun s => scan_markup_plain s false [] |}.

Definition ok_inj {A : Type} {a b : A} (H : Ok a = Ok b) : a = b :=
  f_equal (fun r => match r with Ok x => x | Raise _ => a end) H.

(** A command line and environments for the examples: the source file is
    [workspace/<name>]; the environment says whether the file exists, where
    the transcoder is, how it exits and what the server does. *)
Definition sample_args (name : string) (no_convert : bool) : Args :=
  {| url := "http://127.0.0.1:8080/inference";
     file := {| location := "workspace/"; name := name |};
     response_format := "json";
     temperature := 0; temperature_inc := 0.2;
     language := Some "en"; prompt := None;
     no_convert := no_convert; timeout := 300 |}.

Definition sample_env (found : bool) (ffmpeg : option string)
    (returncode : Z) (reply : result Response) : Env :=
  {| new_console := tag_console;
     expanduser := fun p => Ok p;
     is_file := fun p => Ok (found && negb (String.eqb (name p) ""));
     is_file_named :=
       fun p H =>
         proj1 (String.eqb_neq (name p) "")
           (proj1 (negb_true_iff _) (proj2 (andb_prop _ _ (ok_inj H))));
     which := fun _ => ffmpeg;
     mkdtemp := Ok "/tmp/tmpk3v9";
     run := fun _ => Ok (returncode, "clip.m4a: Invalid data found");
     can_open := fun _ => true;
     post := fun _ _ _ _ => reply;
     perf_counter := (10, 10.5)%float |}.

Definition ffmpeg_path : option string := Some "/usr/bin/ffmpeg".

(** The server answers with the hello body. *)
Definition hello_reply : result Response :=
  Ok (json_response hello_body hello_payload).

Definition m4a_args : Args := sample_args "clip.m4a" false.
Definition wav_args : Args := sample_args "clip.wav" false.

(** The transcoder is there and exits with 1. *)
Definition failing_env : Env := sample_env true ffmpeg_path 1 hello_reply.

(** The transcoder is there and exits with 0. *)
Definition working_env : Env := sample_env true ffmpeg_path 0 hello_reply.

Definition not_found_response : Response :=
  {| status_code := 404; reason_phrase := "Not Found";
     headers_content_type := Some "text/plain";
     text := "File Not Found"; json := Raise JSONDecodeError |}.

(** A body that is the JSON string of a closing tag. *)
Definition closing_tag : string := "[/x]".
Definition closing_tag_response : Response :=
  json_response (q closing_tag) (JStr closing_tag).

(** The server is given a URL that httpx cannot parse. *)
Definition invalid_url_env : Env :=
  sample_env true ffmpeg_path 0 (Raise InvalidURL).

(** A missing file whose name holds a closing tag. *)
Definition tagged_name_args : Args := sample_args "a[/b].wav" false.
Definition missing_env : Env := sample_env false ffmpeg_path 0 hello_reply.


(** A string of exactly [width] decimal digits. *)
Definition digits_of_width (width : nat) (s : string) : bool :=
  (String.length s =? width)%nat
  && forallb is_digit (list_ascii_of_string s).

(** A transcript panel, of either kind. *)
Definition is_transcript (e : Effect) : bool :=
  match e with
  | Print (Panel (Markup _) title) | Print (Panel (RichText _) title) =>
      String.eqb title "Transcript"
  | _ => false
  end.

(** The segment table or the panel of the formatted JSON. *)
Definition is_table (e : Effect) : bool :=
  match e with
  | Print (Table _ _ _) => true
  | _ => false
  end.

Definition is_raw_json (e : Effect) : bool :=
  match e with
  | Print (Panel (RichJSON _) _) => true
  | _ => false
  end.

(** At most one transcript panel. *)
Definition transcript_shape (t : list Effect) : Prop :=
  t = [] \/ exists s, t = [Print (Panel (RichText s) "Transcript")].

(** What [print_result] can have done: after the summary at most one
    transcript panel, then at most one closing panel, which is the table or
    the formatted JSON. *)
Inductive Rendering (console : Console) (response : Response)
    (summary : Effect) : M unit -> Prop :=
| RenderingUndecoded :
    forall e,
      json response = Raise e ->
      declared_json response = true \/ e <> JSONDecodeError ->
      Rendering console response summary ([summary], Raise e)
| RenderingString :
    forall s,
      read_payload response = Ok (JStr s) ->
      markup console (strip s) = true ->
      Rendering console response summary
        ([summary; Print (Panel (Markup (strip s)) "Transcript")], Ok tt)
| RenderingStringRejected :
    forall s,
      read_payload response = Ok (JStr s) ->
      markup console (strip s) = false ->
      Rendering console response summary ([summary], Raise MarkupError)
| RenderingDone :
    forall payload transcript closing,
      read_payload response = Ok payload ->
      is_str payload = false ->
      transcript_shape transcript ->
      is_table closing || is_raw_json closing = true ->
      Rendering console response summary
        ((summary :: transcript ++ [closing])%list, Ok tt)
| RenderingFailed :
    forall payload transcript e,
      read_payload response = Ok payload ->
      is_str payload = false ->
      transcript_shape transcript ->
      e = AttributeError \/ e = OverflowError \/ e = MarkupError ->
      Rendering console response summary (summary :: transcript, Raise e).

(** A string made of white space only. *)
Definition all_space (s : string) : bool :=
  forallb isspace (list_ascii_of_string s).

Definition path_dec (p q : Path) : {p = q} + {p <> q}.
Proof. decide equality; apply string_dec. Defined.

(** The files that are open after a trace, given those open before it. *)
Fixpoint open_after (open : list Path) (t : list Effect) : list Path :=
  match t with
  | Open p :: t' => open_after (p :: open) t'
  | Close p :: t' => open_after (remove path_dec p open) t'
  | _ :: t' => open_after open t'
  | [] => open
  end.

Definition is_run (e : Effect) : bool :=
  match e with
  | Run _ => true
  | _ => false
  end.

Definition is_open (e : Effect) : bool :=
  match e with
  | Open _ => true
  | _ => false
  end.


(** The three effects of a request that could be made. *)
Definition request_effects (args : Args) (upload_path : Path) : list Effect :=
  [Open upload_path; the_post args upload_path; Close upload_path].

(** The ways in which [prepare_audio] hands a path to [main]: what it left
    in the trace, the path and the temporary directory. *)
Inductive Source (args : Args) (env : Env) (file_path : Path)
  : list Effect -> Path -> option string -> Prop :=
| SourceWav :
    is_wav file_path = true ->
    Source args env file_path [] file_path None
| SourceConverted :
    forall temp_dir stderr,
      is_wav file_path = false ->
      no_convert args = false ->
      nonempty (which env "ffmpeg") = true ->
      mkdtemp env = Ok temp_dir ->
      run env (convert_cmd env temp_dir file_path) = Ok (0, stderr) ->
      renders (new_console env)
        (preparing_audio_panel (converted_path temp_dir file_path)) = true ->
      Source args env file_path
        [MkTemp temp_dir; Run (convert_cmd env temp_dir file_path);
         Print (preparing_audio_panel (converted_path temp_dir file_path))]
        (converted_path temp_dir file_path) (Some temp_dir).

(** The source file of a run: the expanded path, and whether it is a
    regular file. *)
Definition located (args : Args) (env : Env) (file_path : Path)
    (found : bool) : Prop :=
  expanduser env (file args) = Ok file_path
  /\ is_file env file_path = Ok found.

(** The ways in which [main] ends. *)
Inductive Finished (args : Args) (env : Env) : M Z -> Prop :=
| FinishedNoHome :
    forall e,
      expanduser env (file args) = Raise e ->
      Finished args env ([], Raise e)
| FinishedNoStat :
    forall file_path e,
      expanduser env (file args) = Ok file_path ->
      is_file env file_path = Raise e ->
      Finished args env ([], Raise e)
| FinishedMissing :
    forall file_path,
      located args env file_path false ->
      renders (new_console env) (file_not_found_panel file_path) = true ->
      Finished args env ([Print (file_not_found_panel file_path)], Ok 2)
| FinishedMissingUnreported :
    forall file_path,
      located args env file_path false ->
      renders (new_console env) (file_not_found_panel file_path) = false ->
      Finished args env ([], Raise MarkupError)
| FinishedUnsupported :
    forall file_path,
      located args env file_path true ->
      is_wav file_path = false ->
      no_convert args = true ->
      Finished args env ([Print unsupported_format_panel], Ok 2)
| FinishedNoTranscoder :
    forall file_path,
      located args env file_path true ->
      is_wav file_path = false ->
      no_convert args = false ->
      nonempty (which env "ffmpeg") = false ->
      Finished args env ([Print missing_dependency_panel], Ok 2)
| FinishedNoTemp :
    forall file_path e,
      located args env file_path true ->
      is_wav file_path = false ->
      no_convert args = false ->
      nonempty (which env "ffmpeg") = true ->
      mkdtemp env = Raise e ->
      Finished args env ([], Raise e)
| FinishedNotRun :
    forall file_path temp_dir e,
      located args env file_path true ->
      is_wav file_path = false ->
      no_convert args = false ->
      nonempty (which env "ffmpeg") = true ->
      mkdtemp env = Ok temp_dir ->
      run env (convert_cmd env temp_dir file_path) = Raise e ->
      Finished args env
        ([MkTemp temp_dir; Run (convert_cmd env temp_dir file_path)], Raise e)
| FinishedNotConverted :
    forall file_path temp_dir returncode stderr,
      located args env file_path true ->
      is_wav file_path = false ->
      no_convert args = false ->
      nonempty (which env "ffmpeg") = true ->
      mkdtemp env = Ok temp_dir ->
      run env (convert_cmd env temp_dir file_path) = Ok (returncode, stderr) ->
      returncode <> 0 ->
      renders (new_console env) (conversion_error_panel stderr) = true ->
      Finished args env
        ([MkTemp temp_dir; Run (convert_cmd env temp_dir file_path);
          Print (conversion_error_panel stderr); Cleanup temp_dir],
         Ok 2)
| FinishedNotConvertedUnreported :
    forall file_path temp_dir returncode stderr,
      located args env file_path true ->
      is_wav file_path = false ->
      no_convert args = false ->
      nonempty (which env "ffmpeg") = true ->
      mkdtemp env = Ok temp_dir ->
      run env (convert_cmd env temp_dir file_path) = Ok (returncode, stderr) ->
      returncode <> 0 ->
      renders (new_console env) (conversion_error_panel stderr) = false ->
      Finished args env
        ([MkTemp temp_dir; Run (convert_cmd env temp_dir file_path)],
         Raise MarkupError)
| FinishedConvertedUnreported :
    forall file_path temp_dir stderr,
      located args env file_path true ->
      is_wav file_path = false ->
      no_convert args = false ->
      nonempty (which env "ffmpeg") = true ->
      mkdtemp env = Ok temp_dir ->
      run env (convert_cmd env temp_dir file_path) = Ok (0, stderr) ->
      renders (new_console env)
        (preparing_audio_panel (converted_path temp_dir file_path)) = false ->
      Finished args env
        ([MkTemp temp_dir; Run (convert_cmd env temp_dir file_path)],
         Raise MarkupError)
| FinishedUnannounced :
    forall file_path pre upload_path temp_dir,
      located args env file_path true ->
      Source args env file_path pre upload_path temp_dir ->
      renders (new_console env) (whisper_asr_panel args file_path upload_path)
      = false ->
      Finished args env (pre, Raise MarkupError)
| FinishedUnreadable :
    forall file_path pre upload_path temp_dir,
      located args env file_path true ->
      Source args env file_path pre upload_path temp_dir ->
      renders (new_console env) (whisper_asr_panel args file_path upload_path)
      = true ->
      can_open env upload_path = false ->
      Finished args env
        ((pre
          ++ Print (whisper_asr_panel args file_path upload_path)
             :: cleanup_trace temp_dir)%list,
         Raise OSError)
| FinishedRefused :
    forall file_path pre upload_path temp_dir msg,
      located args env file_path true ->
      Source args env file_path pre upload_path temp_dir ->
      renders (new_console env) (whisper_asr_panel args file_path upload_path)
      = true ->
      can_open env upload_path = true ->
      answer env args upload_path = Raise (RequestError msg) ->
      renders (new_console env) (network_error_panel msg) = true ->
      Finished args env
        ((pre
          ++ Print (whisper_asr_panel args file_path upload_path)
             :: (request_effects args upload_path
                 ++ [Print (network_error_panel msg)])
             ++ cleanup_trace temp_dir)%list,
         Ok 1)
| FinishedRefusedUnreported :
    forall file_path pre upload_path temp_dir msg,
      located args env file_path true ->
      Source args env file_path pre upload_path temp_dir ->
      renders (new_console env) (whisper_asr_panel args file_path upload_path)
      = true ->
      can_open env upload_path = true ->
      answer env args upload_path = Raise (RequestError msg) ->
      renders (new_console env) (network_error_panel msg) = false ->
      Finished args env
        ((pre
          ++ Print (whisper_asr_panel args file_path upload_path)
             :: request_effects args upload_path
             ++ cleanup_trace temp_dir)%list,
         Raise MarkupError)
| FinishedNotSent :
    forall file_path pre upload_path temp_dir e,
      located args env file_path true ->
      Source args env file_path pre upload_path temp_dir ->
      renders (new_console env) (whisper_asr_panel args file_path upload_path)
      = true ->
      can_open env upload_path = true ->
      answer env args upload_path = Raise e ->
      (forall msg, e <> RequestError msg) ->
      Finished args env
        ((pre
          ++ Print (whisper_asr_panel args file_path upload_path)
             :: request_effects args upload_path
             ++ cleanup_trace temp_dir)%list,
         Raise e)
| FinishedHttpError :
    forall file_path pre upload_path temp_dir response,
      located args env file_path true ->
      Source args env file_path pre upload_path temp_dir ->
      renders (new_console env) (whisper_asr_panel args file_path upload_path)
      = true ->
      can_open env upload_path = true ->
      answer env args upload_path = Ok response ->
      is_error response = true ->
      renders (new_console env) (http_error_panel response) = true ->
      Finished args env
        ((pre
          ++ Print (whisper_asr_panel args file_path upload_path)
             :: request_effects args upload_path
             ++ cleanup_trace temp_dir
             ++ [Print (http_error_panel response)])%list,
         Ok 1)
| FinishedHttpErrorUnreported :
    forall file_path pre upload_path temp_dir response,
      located args env file_path true ->
      Source args env file_path pre upload_path temp_dir ->
      renders (new_console env) (whisper_asr_panel args file_path upload_path)
      = true ->
      can_open env upload_path = true ->
      answer env args upload_path = Ok response ->
      is_error response = true ->
      renders (new_console env) (http_error_panel response) = false ->
      Finished args env
        ((pre
          ++ Print (whisper_asr_panel args file_path upload_path)
             :: request_effects args upload_path
             ++ cleanup_trace temp_dir)%list,
         Raise MarkupError)
| FinishedRendered :
    forall file_path pre upload_path temp_dir response,
      located args env file_path true ->
      Source args env file_path pre upload_path temp_dir ->
      renders (new_console env) (whisper_asr_panel args file_path upload_path)
      = true ->
      can_open env upload_path = true ->
      answer env args upload_path = Ok response ->
      is_error response = false ->
      Finished args env
        ((pre
          ++ Print (whisper_asr_panel args file_path upload_path)
             :: request_effects args upload_path
             ++ cleanup_trace temp_dir
             ++ trace (print_result (new_console env) response
                         (measured env)))%list,
         match
           outcome (print_result (new_console env) response (measured env))
         with
         | Ok _ => Ok 0
         | Raise e => Raise e
         end).

(** * Properties *)

(** ** The time formatter *)

Lemma round_exc (x : float) (e : Exc) :
  Py.round x = Raise e -> e = ValueError \/ e = OverflowError.
Proof.
  unfold Py.round.
  destruct (Prim2SF x) as [s | s | | s m ex]; intro H; inversion H; auto.
Qed.

Lemma float_of_int_exc (n : Z) (e : Exc) :
  float_of_int n = Raise e -> e = OverflowError.
Proof.
  unfold float_of_int.
  destruct (binary_normalize prec emax n 0 false); intro H; inversion H; auto.
Qed.

Lemma float_of_str_exc (s : string) (e : Exc) :
  float_of_str s = Raise e -> e = ValueError.
Proof.
  unfold float_of_str.
  match goal with |- context [option_map parse_float ?o] =>
    destruct (option_map parse_float o) as [[f |] |] end;
    intro H; inversion H; auto.
Qed.

(** The conversion raises nothing but the three arithmetic exceptions. *)
Lemma convert_ms_exc (value : JValue) (e : Exc) :
  convert_ms value = Raise e ->
  e = TypeError \/ e = ValueError \/ e = OverflowError.
Proof.
  unfold convert_ms, bind.
  destruct (py_float value) as [x | e'] eqn:Hf.
  - intro H. apply round_exc in H. tauto.
  - intro H. inversion H; subst e'. clear H.
    destruct value; simpl in Hf; try discriminate;
      try (inversion Hf; auto; fail).
    + apply float_of_int_exc in Hf. auto.
    + apply float_of_str_exc in Hf. auto.
Qed.

Lemma format_seconds_none : format_seconds JNull = Ok "-".
Proof. reflexivity. Qed.

Lemma format_seconds_unconvertible (value : JValue) :
  convert_ms value = Raise TypeError \/ convert_ms value = Raise ValueError ->
  format_seconds value = Ok "-".
Proof.
  intros [H | H]; unfold format_seconds; rewrite H; destruct value; reflexivity.
Qed.

Lemma format_seconds_overflow (value : JValue) :
  convert_ms value = Raise OverflowError ->
  format_seconds value = Raise OverflowError.
Proof.
  intro H. unfold format_seconds. rewrite H.
  destruct value; try reflexivity. discriminate H.
Qed.

Lemma format_seconds_ok (value : JValue) (ms : Z) :
  convert_ms value = Ok ms -> format_seconds value = Ok (clock ms).
Proof.
  intro H. unfold format_seconds. rewrite H.
  assert (Hv : value <> JNull) by (intro Hn; subst value; discriminate H).
  unfold clock.
  change (3600 * 1000) with 3600000. change (60 * 1000) with 60000.
  destruct (ms / 3600000 =? 0); destruct value; simpl; congruence.
Qed.

Example format_seconds_65_4321 : format_seconds (JFloat 65.4321) = Ok "01:05.432".
Proof. vm_compute. reflexivity. Qed.

Example format_seconds_3725 : format_seconds (JFloat 3725.0) = Ok "01:02:05.000".
Proof. vm_compute. reflexivity. Qed.

Example format_seconds_nan : format_seconds (JFloat nan) = Ok "-".
Proof. vm_compute. reflexivity. Qed.

(** C2: the time formatter gives a dash for [None] and for a value that
    cannot be converted, and a clock string otherwise.  The code does so
    except where the conversion overflows: the handler of [format_seconds]
    names [TypeError] and [ValueError] only, so for an infinite float
    [round] raises an [OverflowError] that leaves the function. *)
Theorem format_seconds_infinity_raises :
  format_seconds (JFloat infinity) = Raise OverflowError.
Proof. vm_compute. reflexivity. Qed.

Example format_seconds_huge_int :
  format_seconds (JInt (10 ^ 400)) = Raise OverflowError.
Proof. vm_compute. reflexivity. Qed.

(** ** The console *)

Lemma has_bracket_app (s t : string) :
  has_bracket (s ++ t) = has_bracket s || has_bracket t.
Proof.
  unfold has_bracket. induction s as [| c s IH]; [reflexivity |].
  cbn [append list_ascii_of_string existsb]. now rewrite IH, orb_assoc.
Qed.

Lemma console_print_shown (console : Console) (r : Renderable) :
  renders console r = true -> console_print console r = ([Print r], Ok tt).
Proof. intro H. unfold console_print. now rewrite H. Qed.

Lemma console_print_rejected (console : Console) (r : Renderable) :
  renders console r = false ->
  console_print console r = ([], Raise MarkupError).
Proof. intro H. unfold console_print. now rewrite H. Qed.

(** A renderable whose markup holds no bracket is rendered by every
    console. *)
Lemma renders_plain (console : Console) (r : Renderable) :
  existsb has_bracket (markup_texts r) = false -> renders console r = true.
Proof.
  intro H. unfold renders. apply forallb_forall. intros s Hin.
  apply markup_plain. destruct (has_bracket s) eqn:Hs; [| reflexivity].
  rewrite <- H. symmetry. apply existsb_exists. now exists s.
Qed.

Lemma print_plain (console : Console) (r : Renderable) :
  existsb has_bracket (markup_texts r) = false ->
  console_print console r = ([Print r], Ok tt).
Proof. intro H. apply console_print_shown, renders_plain, H. Qed.

(** The panels that hold a [Text] or a [JSON] under a fixed title, and the
    two reports with a fixed text, are always shown. *)
Lemma print_summary (console : Console) (response : Response)
    (elapsed : float) :
  console_print console (summary_panel response elapsed)
  = ([Print (summary_panel response elapsed)], Ok tt).
Proof. now apply print_plain. Qed.

Lemma print_raw_json (console : Console) (payload : JValue) :
  console_print console (raw_json payload)
  = ([Print (raw_json payload)], Ok tt).
Proof. now apply print_plain. Qed.

Lemma print_transcript_text (console : Console) (s : string) :
  console_print console (Panel (RichText s) "Transcript")
  = ([Print (Panel (RichText s) "Transcript")], Ok tt).
Proof. now apply print_plain. Qed.

Lemma print_unsupported_format (console : Console) :
  console_print console unsupported_format_panel
  = ([Print unsupported_format_panel], Ok tt).
Proof. now apply print_plain. Qed.

Lemma print_missing_dependency (console : Console) :
  console_print console missing_dependency_panel
  = ([Print missing_dependency_panel], Ok tt).
Proof. now apply print_plain. Qed.

(** A transcript panel whose body is a [str]: only the body can be
    rejected. *)
Lemma renders_transcript_markup (console : Console) (s : string) :
  renders console (Panel (Markup s) "Transcript") = markup console s.
Proof.
  unfold renders. cbn [markup_texts forallb].
  rewrite (markup_plain console "Transcript") by reflexivity.
  now rewrite !andb_true_r.
Qed.

(** *** Numbers and times hold no bracket *)

Lemma has_bracket_uint (d : Decimal.uint) :
  has_bracket (NilEmpty.string_of_uint d) = false.
Proof. induction d; [reflexivity | exact IHd ..]. Qed.

Lemma has_bracket_string_of_uint (d : Decimal.uint) :
  has_bracket (NilZero.string_of_uint d) = false.
Proof.
  destruct d; [reflexivity | ..];
    match goal with
    | |- has_bracket (NilZero.string_of_uint ?x) = false =>
        exact (has_bracket_uint x)
    end.
Qed.

Lemma has_bracket_str_of_int (z : Z) : has_bracket (str_of_int z) = false.
Proof.
  unfold str_of_int, NilZero.string_of_int.
  destruct (Z.to_int z) as [d | d]; [apply has_bracket_string_of_uint |].
  exact (has_bracket_string_of_uint d).
Qed.

Lemma has_bracket_zeros (n : nat) : has_bracket (zeros n) = false.
Proof. induction n as [| n IH]; [reflexivity | exact IH]. Qed.

Lemma has_bracket_format_0d (width : nat) (z : Z) :
  has_bracket (format_0d width z) = false.
Proof.
  unfold format_0d, zfill.
  destruct (z <? 0);
    rewrite ?has_bracket_app, has_bracket_zeros, has_bracket_str_of_int;
    reflexivity.
Qed.

Lemma has_bracket_clock (ms : Z) : has_bracket (clock ms) = false.
Proof.
  unfold clock. cbv zeta.
  destruct (ms / 3600000 =? 0);
    rewrite ?has_bracket_app, ?has_bracket_format_0d; reflexivity.
Qed.

Lemma has_bracket_time_text (value : JValue) :
  has_bracket (time_text value) = false.
Proof.
  unfold time_text.
  destruct (convert_ms value); [apply has_bracket_clock | reflexivity].
Qed.

(** ** The renderer *)

Lemma format_seconds_time_text (value : JValue) :
  overflows value = false -> format_seconds value = Ok (time_text value).
Proof.
  unfold overflows, time_text.
  destruct (convert_ms value) as [ms | e] eqn:Hms.
  - intros _. apply format_seconds_ok, Hms.
  - destruct (convert_ms_exc _ _ Hms) as [-> | [-> | ->]]; intro H;
      try discriminate H; apply format_seconds_unconvertible; auto.
Qed.

Lemma py_strip_text_like (v : JValue) :
  text_like v = true -> py_strip (or_empty v) = Ok (text_cell v).
Proof.
  unfold text_like, text_cell, or_empty.
  destruct (truthy v) eqn:Ht; simpl; intro H.
  - destruct v; try discriminate H. reflexivity.
  - reflexivity.
Qed.

Lemma segment_row_ok (idx : nat) (segment : JValue) :
  segment_ok segment = true ->
  segment_row (Z.of_nat idx) segment = Ok (row_of (idx, segment)).
Proof.
  destruct segment as [ | | | | | | d]; try discriminate. simpl.
  intro H.
  apply andb_prop in H. destruct H as [H Htext].
  apply andb_prop in H. destruct H as [Hstart Hend].
  apply negb_true_iff in Hstart, Hend.
  unfold segment_row. simpl.
  rewrite (format_seconds_time_text _ Hstart). simpl.
  rewrite (format_seconds_time_text _ Hend). simpl.
  rewrite (py_strip_text_like _ Htext). reflexivity.
Qed.

Lemma segment_rows_ok (segments : list JValue) :
  forall idx : nat,
    forallb segment_ok segments = true ->
    segment_rows (Z.of_nat idx) segments
    = Ok (map row_of (combine (seq idx (List.length segments)) segments)).
Proof.
  induction segments as [| segment rest IH]; intros idx H.
  - reflexivity.
  - simpl in H. apply andb_prop in H. destruct H as [Hs Hrest].
    cbn [segment_rows List.length seq combine map].
    rewrite (segment_row_ok _ _ Hs). cbn [bind].
    replace (Z.of_nat idx + 1) with (Z.of_nat (S idx)) by lia.
    rewrite (IH (S idx) Hrest). reflexivity.
Qed.

Lemma build_segments_table_ok (segments : list JValue) :
  forallb segment_ok segments = true ->
  build_segments_table segments = Ok (segments_table segments).
Proof.
  intro H. unfold build_segments_table.
  change 1 with (Z.of_nat 1).
  rewrite (segment_rows_ok _ 1%nat H). reflexivity.
Qed.

Lemma renders_rows (console : Console) (segments : list JValue) :
  forall idx : nat,
    forallb (markup console)
      (List.concat
         (map row_of (combine (seq idx (List.length segments)) segments)))
    = forallb (fun segment => markup console (segment_text segment)) segments.
Proof.
  induction segments as [| segment rest IH]; intro idx; [reflexivity |].
  cbn [List.length seq combine map List.concat].
  rewrite forallb_app, (IH (S idx)). cbn [forallb]. f_equal.
  destruct segment as [ | | | | | | d];
    try (cbn; symmetry; now apply markup_plain).
  cbn [row_of segment_text forallb].
  rewrite (markup_plain console (str_of_int _))
    by apply has_bracket_str_of_int.
  rewrite !(markup_plain console (time_text _))
    by apply has_bracket_time_text.
  now rewrite andb_true_r.
Qed.

(** The table is rejected for the text of a segment only. *)
Lemma renders_segments_table (console : Console) (segments : list JValue) :
  renders console (segments_table segments)
  = forallb (fun segment => markup console (segment_text segment)) segments.
Proof.
  unfold renders, segments_table, rows_of.
  cbn [markup_texts forallb app].
  rewrite !(markup_plain console) by reflexivity.
  apply renders_rows.
Qed.

(** The first half of [render_result]: the transcript panel. *)
Lemma render_transcript (console : Console)
    (result : list (string * JValue)) :
  text_like (dict_get result "text") = true ->
  (if truthy (dict_get result "text") then
     stripped <- lift (py_strip (dict_get result "text")) ;;
     console_print console (Panel (RichText stripped) "Transcript")
   else ret tt)
  = (transcript_of result, Ok tt).
Proof.
  unfold text_like, transcript_of.
  destruct (dict_get result "text") as [ | b | n | x | s | l | d];
    simpl; intro H;
    try (rewrite orb_false_r in H; apply negb_true_iff in H; rewrite H);
    try reflexivity.
  destruct (String.eqb s ""); [reflexivity |].
  cbn [negb]. now rewrite print_transcript_text.
Qed.

Lemma extract_result_not_str (payload : JValue) (d : list (string * JValue)) :
  extract_result payload = JDict d -> is_str payload = false.
Proof. destruct payload; simpl; intro H; try reflexivity. discriminate H. Qed.

(** A body that decodes is decoded, whatever content type is declared. *)
Lemma read_payload_decoded (response : Response) (v : JValue) :
  json response = Ok v -> read_payload response = Ok v.
Proof.
  intro Hv. unfold read_payload, response_json. rewrite Hv.
  destruct (declared_json response); reflexivity.
Qed.

Lemma mbind_ret_l {A B : Type} (a : A) (k : A -> M B) :
  mbind (ret a) k = k a.
Proof. unfold mbind, ret. destruct (k a). reflexivity. Qed.

(** What [print_result] does once the payload is read. *)
Lemma print_result_read (console : Console) (response : Response)
    (elapsed : float) (payload : JValue) :
  read_payload response = Ok payload ->
  print_result console response elapsed
  = (emit (Print (summary_panel response elapsed)) ;;;
     match payload with
     | JStr s => console_print console (Panel (Markup (strip s)) "Transcript")
     | _ => render_payload console payload
     end).
Proof.
  intro Hp. unfold print_result. rewrite print_summary, Hp.
  change (lift (Ok payload)) with (ret payload). now rewrite mbind_ret_l.
Qed.

Lemma print_result_unread (console : Console) (response : Response)
    (elapsed : float) (e : Exc) :
  read_payload response = Raise e ->
  print_result console response elapsed
  = ([Print (summary_panel response elapsed)], Raise e).
Proof.
  intro Hp. unfold print_result. now rewrite print_summary, Hp.
Qed.

(** The rendering of a payload that is a plain string. *)
Lemma print_result_string (console : Console) (response : Response)
    (elapsed : float) (s : string) :
  read_payload response = Ok (JStr s) ->
  print_result console response elapsed
  = if markup console (strip s)
    then ([Print (summary_panel response elapsed);
           Print (Panel (Markup (strip s)) "Transcript")], Ok tt)
    else ([Print (summary_panel response elapsed)], Raise MarkupError).
Proof.
  intro Hp. rewrite (print_result_read _ _ _ _ Hp).
  unfold console_print. rewrite renders_transcript_markup.
  destruct (markup console (strip s)); reflexivity.
Qed.

(** C1 (amended): the body is decoded as JSON whatever content type is
    declared; when the decoding fails with [json.JSONDecodeError] the
    renderer lets that error out if the declared content type starts with
    application/json, and otherwise passes the stripped text of the body to
    a transcript panel, which is shown when the console takes the text as
    markup. *)
Theorem print_result_parse_failure (console : Console) (response : Response)
    (elapsed : float) :
  (forall v, json response = Ok v -> read_payload response = Ok v)
  /\ (json response = Raise JSONDecodeError ->
      if declared_json response
      then print_result console response elapsed
           = ([Print (summary_panel response elapsed)], Raise JSONDecodeError)
      else markup console (strip (text response)) = true ->
           print_result console response elapsed
           = ([Print (summary_panel response elapsed);
               Print (Panel (Markup (strip (text response))) "Transcript")],
              Ok tt)).
Proof.
  split.
  - apply read_payload_decoded.
  - intro Hjson. destruct (declared_json response) eqn:Hd.
    + apply print_result_unread. unfold read_payload, response_json.
      now rewrite Hd, Hjson.
    + intro Hm. rewrite (print_result_string _ _ _ (text response)).
      * now rewrite Hm.
      * unfold read_payload, response_json. now rewrite Hd, Hjson.
Qed.

Lemma print_result_parse_failure_witness :
  print_result tag_console plain_text_response 0.5
  = ([Print (summary_panel plain_text_response 0.5);
      Print (Panel (Markup "upstream unavailable") "Transcript")], Ok tt).
Proof.
  exact (proj2 (print_result_parse_failure tag_console plain_text_response
                  0.5) eq_refl eq_refl).
Defined.

(** C1 as stated fails: under a JSON content type a body that does not
    decode ends the rendering, and the run, with the decoding error. *)
Lemma print_result_parse_failure_surfaces :
  json undecodable_response = Raise JSONDecodeError
  /\ is_error undecodable_response = false
  /\ print_result tag_console undecodable_response 0.5
     = ([Print (summary_panel undecodable_response 0.5)],
        Raise JSONDecodeError)
  /\ outcome (main wav_args
                (sample_env true ffmpeg_path 0 (Ok undecodable_response)))
     = Raise JSONDecodeError.
Proof. repeat split; vm_compute; reflexivity. Qed.

(** C8: a payload that is a plain string is passed, stripped, to a
    transcript panel as a [str], which rich reads as console markup, and
    nothing else follows the summary.  The panel is shown when the console
    takes the string as markup; when it does not, as for a string that
    holds a closing tag with nothing to close, [print_result] raises
    [MarkupError] and the request summary is all it has shown. *)
Theorem print_result_plain_string (console : Console) (response : Response)
    (elapsed : float) (s : string) :
  json response = Ok (JStr s) ->
  print_result console response elapsed
  = if markup console (strip s)
    then ([Print (summary_panel response elapsed);
           Print (Panel (Markup (strip s)) "Transcript")], Ok tt)
    else ([Print (summary_panel response elapsed)], Raise MarkupError).
Proof.
  intro H. apply print_result_string, read_payload_decoded, H.
Qed.

Lemma print_result_plain_string_witness :
  print_result tag_console closing_tag_response 0.5
  = ([Print (summary_panel closing_tag_response 0.5)], Raise MarkupError)
  /\ print_result tag_console
       (json_response (q "plain text") (JStr "plain text")) 0.5
     = ([Print (summary_panel
                  (json_response (q "plain text") (JStr "plain text")) 0.5);
         Print (Panel (Markup "plain text") "Transcript")], Ok tt).
Proof.
  split.
  - exact (print_result_plain_string tag_console closing_tag_response 0.5
             closing_tag eq_refl).
  - exact (print_result_plain_string tag_console
             (json_response (q "plain text") (JStr "plain text")) 0.5
             "plain text" eq_refl).
Defined.

(** The rendering of a payload that is not a plain string. *)
Lemma print_result_render (console : Console) (response : Response)
    (elapsed : float) (payload : JValue) :
  read_payload response = Ok payload ->
  is_str payload = false ->
  print_result console response elapsed
  = (emit (Print (summary_panel response elapsed)) ;;;
     render_payload console payload).
Proof.
  intros Hp Hs. rewrite (print_result_read _ _ _ _ Hp).
  destruct payload; try discriminate Hs; reflexivity.
Qed.

(** C10: when the text of the result is truthy and not a string, the
    rendering of the payload raises [AttributeError] and shows nothing: no
    transcript, no table, no JSON panel.  [print_result] has no handler, so
    it ends with that error, the request summary being all it has shown. *)
Theorem render_text_not_str (console : Console)
    (payload : JValue) (result : list (string * JValue)) :
  extract_result payload = JDict result ->
  truthy (dict_get result "text") = true ->
  is_str (dict_get result "text") = false ->
  render_payload console payload = ([], Raise AttributeError)
  /\ (forall response elapsed,
         read_payload response = Ok payload ->
         print_result console response elapsed
         = ([Print (summary_panel response elapsed)], Raise AttributeError)).
Proof.
  intros Hr Ht Hs.
  assert (H : render_payload console payload = ([], Raise AttributeError)).
  { unfold render_payload. rewrite Hr. unfold render_result. rewrite Ht.
    destruct (dict_get result "text"); try discriminate Hs; reflexivity. }
  split; [exact H |].
  intros response elapsed Hp.
  rewrite (print_result_render _ _ _ _ Hp (extract_result_not_str _ _ Hr)), H.
  reflexivity.
Qed.

Lemma render_text_not_str_witness :
  print_result tag_console
    (json_response numeric_text_body numeric_text_payload) 0.5
  = ([Print (summary_panel
               (json_response numeric_text_body numeric_text_payload) 0.5)],
     Raise AttributeError).
Proof.
  apply (proj2 (render_text_not_str tag_console numeric_text_payload
                  [("text", JInt 5);
                   ("segments",
                    JList [JDict [("start", JFloat 0.0); ("end", JFloat 1.0);
                                  ("text", JStr "a")]])]
                  eq_refl eq_refl eq_refl)).
  reflexivity.
Defined.

(** C9: a top-level object that has a [text] or a [segments] key is the
    result itself, whatever the values are: the transcript and the table are
    those of its own fields, and a nested [result] plays no part.  When both
    values are falsy the payload is shown as raw JSON. *)
Theorem extract_result_key_presence (console : Console)
    (d : list (string * JValue)) :
  dict_has d "text" || dict_has d "segments" = true ->
  extract_result (JDict d) = JDict d
  /\ render_payload console (JDict d) = render_result console (JDict d) d
  /\ (truthy (dict_get d "text") = false ->
      truthy (dict_get d "segments") = false ->
      render_payload console (JDict d)
      = ([Print (raw_json (JDict d))], Ok tt)).
Proof.
  intro Hkey.
  assert (He : extract_result (JDict d) = JDict d)
    by (unfold extract_result; rewrite Hkey; reflexivity).
  assert (Hr : render_payload console (JDict d)
               = render_result console (JDict d) d)
    by (unfold render_payload; rewrite He; reflexivity).
  split; [exact He | split; [exact Hr |]].
  intros Ht Hs. rewrite Hr. unfold render_result. rewrite Ht.
  destruct (dict_get d "segments") as [ | | | | | [| seg rest] | ];
    try (rewrite print_raw_json; reflexivity).
  discriminate Hs.
Qed.

Lemma extract_result_key_presence_witness :
  extract_result shadowed_payload = shadowed_payload
  /\ print_result tag_console (json_response shadowed_body shadowed_payload)
       0.5
     = ([Print (summary_panel (json_response shadowed_body shadowed_payload)
                  0.5);
         Print (raw_json shadowed_payload)], Ok tt).
Proof.
  destruct (extract_result_key_presence tag_console
              [("text", JStr ""); ("result", JDict [("text", JStr "hi")])]
              eq_refl) as (He & _ & Hr).
  split; [exact He |].
  rewrite (print_result_render tag_console
             (json_response shadowed_body shadowed_payload) 0.5
             shadowed_payload eq_refl eq_refl).
  unfold shadowed_payload. rewrite (Hr eq_refl eq_refl). reflexivity.
Defined.

Lemma dict_get_absent (d : list (string * JValue)) (key : string) :
  dict_has d key = false -> dict_get d key = JNull.
Proof.
  induction d as [| [k v] d IH]; simpl.
  - reflexivity.
  - destruct (String.eqb k key); [discriminate | exact IH].
Qed.

(** C4: for a payload that is not a plain string (a plain string is shown
    before any result is looked for), the result is the top-level object
    when it has a [text] or a [segments] key; failing that, the object under
    [result]; failing that, nothing is extracted and the renderer shows the
    whole payload as formatted JSON. *)
Theorem extract_result_priority (console : Console) (payload : JValue) :
  is_str payload = false ->
  (forall d,
      payload = JDict d ->
      dict_has d "text" || dict_has d "segments" = true ->
      extract_result payload = payload)
  /\ (forall d r,
         payload = JDict d ->
         dict_has d "text" || dict_has d "segments" = false ->
         dict_get d "result" = JDict r ->
         extract_result payload = JDict r
         /\ render_payload console payload = render_result console payload r)
  /\ ((forall d,
          payload = JDict d ->
          dict_has d "text" || dict_has d "segments" = false
          /\ is_dict (dict_get d "result") = false) ->
      extract_result payload = payload
      /\ (forall response elapsed,
             read_payload response = Ok payload ->
             print_result console response elapsed
             = ([Print (summary_panel response elapsed);
                 Print (raw_json payload)], Ok tt))).
Proof.
  intro Hstr. split; [| split].
  - intros d -> Hkey. unfold extract_result. rewrite Hkey. reflexivity.
  - intros d r -> Hkey Hres.
    assert (He : extract_result (JDict d) = JDict r)
      by (unfold extract_result; rewrite Hkey, Hres; reflexivity).
    split; [exact He |]. unfold render_payload. rewrite He. reflexivity.
  - intro H.
    assert (Hraw : extract_result payload = payload
                   /\ render_payload console payload
                      = ([Print (raw_json payload)], Ok tt)).
    { destruct payload as [ | b | n | x | s | l | d];
        try (split; [reflexivity | apply print_raw_json]).
      destruct (H d eq_refl) as [Hkey Hres].
      assert (He : extract_result (JDict d) = JDict d).
      { unfold extract_result. rewrite Hkey.
        destruct (dict_get d "result"); try reflexivity. discriminate Hres. }
      split; [exact He |].
      apply orb_false_elim in Hkey. destruct Hkey as [Ht Hs].
      unfold render_payload. rewrite He. unfold render_result.
      rewrite (dict_get_absent _ _ Ht), (dict_get_absent _ _ Hs).
      cbn [truthy]. rewrite print_raw_json. reflexivity. }
    destruct Hraw as [He Hr]. split; [exact He |].
    intros response elapsed Hp.
    rewrite (print_result_render _ _ _ _ Hp Hstr), Hr. reflexivity.
Qed.

Lemma extract_result_priority_witness :
  extract_result hello_payload = hello_payload
  /\ print_result tag_console (json_response nested_body nested_payload) 0.5
     = ([Print (summary_panel (json_response nested_body nested_payload) 0.5);
         Print (Panel (RichText "hi") "Transcript");
         Print (Table "Segments" ["#"; "Start"; "End"; "Text"]
                  [["1"; "00:01.000"; "00:02.500"; "a"]])], Ok tt)
  /\ print_result tag_console (json_response foo_body foo_payload) 0.5
     = ([Print (summary_panel (json_response foo_body foo_payload) 0.5);
         Print (raw_json foo_payload)], Ok tt).
Proof.
  split; [| split].
  - apply (proj1 (extract_result_priority tag_console hello_payload eq_refl)
             [("text", JStr "hello"); ("segments", JList [])]);
      reflexivity.
  - rewrite (print_result_render tag_console
               (json_response nested_body nested_payload) 0.5
               nested_payload eq_refl eq_refl).
    destruct (proj1 (proj2 (extract_result_priority tag_console
                              nested_payload eq_refl))
                _ _ eq_refl eq_refl eq_refl) as [_ Hr].
    rewrite Hr. vm_compute. reflexivity.
  - destruct (proj2 (proj2 (extract_result_priority tag_console foo_payload
                              eq_refl)))
      as [_ Hr].
    + intros d Hd. injection Hd as <-. split; reflexivity.
    + apply Hr. reflexivity.
Defined.

(** The table of segments that it can show is printed or rejected. *)
Lemma print_segments_table (console : Console) (segments : list JValue) :
  forallb segment_ok segments = true ->
  (table <- lift (build_segments_table segments) ;;
   console_print console table)
  = if forallb (fun segment => markup console (segment_text segment)) segments
    then ([Print (segments_table segments)], Ok tt)
    else ([], Raise MarkupError).
Proof.
  intro Hsegs. rewrite (build_segments_table_ok _ Hsegs).
  change (lift (Ok (segments_table segments)))
    with (ret (segments_table segments)).
  rewrite mbind_ret_l. unfold console_print.
  rewrite renders_segments_table.
  destruct (forallb _ segments); reflexivity.
Qed.

(** C3 (amended): for a result whose text is falsy or a string, the
    segment table is printed and the rendering stops there when [segments]
    is a non-empty list of objects that the table can show (text falsy or a
    string that the console takes as markup, times that do not overflow),
    with one row per segment: its number from 1, the formatted start and
    end, the stripped text or a blank.  When [segments] is not a non-empty
    list no table is printed and the payload follows as formatted JSON. *)
Theorem render_result_segments (console : Console)
    (payload : JValue) (result : list (string * JValue)) :
  text_like (dict_get result "text") = true ->
  match dict_get result "segments" with
  | JList (segment :: rest) =>
      forallb segment_ok (segment :: rest) = true ->
      forallb (fun s => markup console (segment_text s)) (segment :: rest)
      = true ->
      render_result console payload result
      = ((transcript_of result
          ++ [Print (segments_table (segment :: rest))])%list, Ok tt)
  | _ =>
      render_result console payload result
      = ((transcript_of result ++ [Print (raw_json payload)])%list, Ok tt)
  end.
Proof.
  intro Htext. unfold render_result. cbv zeta.
  rewrite (render_transcript console result Htext).
  destruct (dict_get result "segments") as [ | b | n | x | s | [| seg rest] | d];
    try (rewrite print_raw_json; reflexivity).
  intros Hsegs Hm. rewrite (print_segments_table _ _ Hsegs), Hm. reflexivity.
Qed.

Lemma render_result_segments_witness :
  print_result tag_console (json_response hello_body hello_payload) 0.5
  = ([Print (summary_panel (json_response hello_body hello_payload) 0.5);
      Print (Panel (RichText "hello") "Transcript");
      Print (raw_json hello_payload)], Ok tt)
  /\ render_result tag_console nested_payload
       [("text", JStr "hi");
        ("segments",
         JList [JDict [("start", JFloat 1.0); ("end", JFloat 2.5);
                       ("text", JStr " a ")]])]
     = ([Print (Panel (RichText "hi") "Transcript");
         Print (Table "Segments" ["#"; "Start"; "End"; "Text"]
                  [["1"; "00:01.000"; "00:02.500"; "a"]])], Ok tt).
Proof.
  split.
  - rewrite (print_result_render tag_console
               (json_response hello_body hello_payload) 0.5
               hello_payload eq_refl eq_refl).
    assert (H : render_result tag_console hello_payload
                  [("text", JStr "hello"); ("segments", JList [])]
                = ([Print (Panel (RichText "hello") "Transcript");
                    Print (raw_json hello_payload)], Ok tt))
      by exact (render_result_segments tag_console hello_payload
                  [("text", JStr "hello"); ("segments", JList [])] eq_refl).
    change (render_payload tag_console hello_payload)
      with (render_result tag_console hello_payload
              [("text", JStr "hello"); ("segments", JList [])]).
    rewrite H. reflexivity.
  - exact (render_result_segments tag_console nested_payload
             [("text", JStr "hi");
              ("segments",
               JList [JDict [("start", JFloat 1.0); ("end", JFloat 2.5);
                             ("text", JStr " a ")]])]
             eq_refl eq_refl eq_refl).
Defined.

(** C3 as stated fails: in each of these results [segments] is a
    non-empty list, and no table is printed, because the text of the
    result, the text of the segment, or the segment itself is a number. *)
Lemma segments_table_not_rendered :
  print_result tag_console
    (json_response numeric_text_body numeric_text_payload) 0.5
  = ([Print (summary_panel
               (json_response numeric_text_body numeric_text_payload) 0.5)],
     Raise AttributeError)
  /\ print_result tag_console
       (json_response numeric_segment_body numeric_segment_payload) 0.5
     = ([Print (summary_panel
                  (json_response numeric_segment_body numeric_segment_payload)
                  0.5)],
        Raise AttributeError)
  /\ print_result tag_console
       (json_response number_segment_body number_segment_payload) 0.5
     = ([Print (summary_panel
                  (json_response number_segment_body number_segment_payload)
                  0.5)],
        Raise AttributeError).
Proof. repeat split; vm_compute; reflexivity. Qed.

(** ** Paths *)

Lemma rfind_dot_wav (s : string) :
  rfind "." (s ++ ".wav") = Some (String.length s).
Proof.
  induction s as [| a s IH].
  - reflexivity.
  - cbn [append rfind String.length]. rewrite IH. reflexivity.
Qed.

Lemma length_append (s t : string) :
  String.length (s ++ t) = (String.length s + String.length t)%nat.
Proof. induction s as [| a s IH]; simpl; [reflexivity | now rewrite IH]. Qed.

Lemma substring_skip (s t : string) (n : nat) :
  substring (String.length s) n (s ++ t) = substring 0 n t.
Proof. induction s as [| a s IH]; simpl; [reflexivity | exact IH]. Qed.

Lemma stem_nonempty (p : Path) : name p <> "" -> stem p <> "".
Proof.
  intro Hname. unfold stem, suffix_start.
  destruct (rfind "." (name p)) as [i |]; [| exact Hname].
  destruct ((0 <? i)%nat && (i <? String.length (name p) - 1)%nat) eqn:Hi;
    [| exact Hname].
  apply andb_prop in Hi. destruct Hi as [Hpos _].
  apply Nat.ltb_lt in Hpos.
  destruct i as [| i]; [lia |].
  destruct (name p) as [| a s]; [congruence |]. simpl. discriminate.
Qed.

(** A file name made of a non-empty stem and [.wav] has the suffix
    [.wav]. *)
Lemma is_wav_converted (directory stem_ : string) :
  stem_ <> "" -> is_wav (path_in directory (stem_ ++ ".wav")) = true.
Proof.
  intro Hstem. unfold is_wav, suffix, suffix_start, path_in. cbn [name].
  rewrite rfind_dot_wav, length_append. cbn [String.length].
  assert (Hlen : (0 < String.length stem_)%nat)
    by (destruct stem_; [congruence | simpl; lia]).
  replace ((0 <? String.length stem_)%nat) with true
    by (symmetry; apply Nat.ltb_lt; exact Hlen).
  replace ((String.length stem_ <? String.length stem_ + 4 - 1)%nat) with true
    by (symmetry; apply Nat.ltb_lt; lia).
  cbn [andb].
  replace (String.length stem_ + 4 - String.length stem_)%nat with 4%nat by lia.
  rewrite substring_skip. reflexivity.
Qed.

(** ** The run *)

Lemma trace_mbind {A B : Type} (m : M A) (k : A -> M B) :
  trace (mbind m k)
  = (trace m
     ++ match outcome m with
        | Ok a => trace (k a)
        | Raise _ => []
        end)%list.
Proof.
  destruct m as [t [a | e]]; unfold mbind, outcome, trace; simpl.
  - destruct (k a). reflexivity.
  - now rewrite app_nil_r.
Qed.

(** *** [prepare_audio], branch by branch *)

Section PrepareAudio.

Variables (env : Env) (console : Console) (file_path : Path).

Lemma prepare_audio_wav (allow : bool) :
  is_wav file_path = true ->
  prepare_audio env console file_path allow
  = ([], Ok (Some file_path, None)).
Proof. intro H. unfold prepare_audio. rewrite H. reflexivity. Qed.

Lemma prepare_audio_unsupported :
  is_wav file_path = false ->
  prepare_audio env console file_path false
  = ([Print unsupported_format_panel], Ok (None, None)).
Proof.
  intro H. unfold prepare_audio. rewrite H. cbn [negb].
  now rewrite print_unsupported_format.
Qed.

Lemma prepare_audio_missing :
  is_wav file_path = false ->
  nonempty (which env "ffmpeg") = false ->
  prepare_audio env console file_path true
  = ([Print missing_dependency_panel], Ok (None, None)).
Proof.
  intros H Hw. unfold prepare_audio. rewrite H, Hw. cbn [negb].
  now rewrite print_missing_dependency.
Qed.

Hypothesis not_wav : is_wav file_path = false.
Hypothesis ffmpeg_found : nonempty (which env "ffmpeg") = true.

Lemma prepare_audio_no_temp (e : Exc) :
  mkdtemp env = Raise e ->
  prepare_audio env console file_path true = ([], Raise e).
Proof.
  intro Hd. unfold prepare_audio. rewrite not_wav, ffmpeg_found, Hd.
  reflexivity.
Qed.

Variable temp_dir : string.
Hypothesis temp_made : mkdtemp env = Ok temp_dir.

Let cmd : list string := convert_cmd env temp_dir file_path.
Let output_path : Path := converted_path temp_dir file_path.

Lemma prepare_audio_not_run (e : Exc) :
  run env cmd = Raise e ->
  prepare_audio env console file_path true
  = ([MkTemp temp_dir; Run cmd], Raise e).
Proof.
  intro Hr. unfold prepare_audio.
  rewrite not_wav, ffmpeg_found, temp_made.
  cbn -[convert_cmd console_print renders]. fold cmd. rewrite Hr. reflexivity.
Qed.

Lemma prepare_audio_failed (returncode : Z) (stderr : string) :
  run env cmd = Ok (returncode, stderr) ->
  returncode <> 0 ->
  prepare_audio env console file_path true
  = if renders console (conversion_error_panel stderr)
    then ([MkTemp temp_dir; Run cmd; Print (conversion_error_panel stderr);
           Cleanup temp_dir],
          Ok (None, None))
    else ([MkTemp temp_dir; Run cmd], Raise MarkupError).
Proof.
  intros Hr Hrc. unfold prepare_audio.
  rewrite not_wav, ffmpeg_found, temp_made.
  cbn -[convert_cmd console_print renders]. fold cmd. rewrite Hr.
  apply Z.eqb_neq in Hrc. rewrite Hrc. cbn [negb].
  destruct (renders console (conversion_error_panel stderr)) eqn:Hp;
    [rewrite (console_print_shown _ _ Hp)
    | rewrite (console_print_rejected _ _ Hp)];
    reflexivity.
Qed.

Lemma prepare_audio_converted (stderr : string) :
  run env cmd = Ok (0, stderr) ->
  prepare_audio env console file_path true
  = if renders console (preparing_audio_panel output_path)
    then ([MkTemp temp_dir; Run cmd;
           Print (preparing_audio_panel output_path)],
          Ok (Some output_path, Some temp_dir))
    else ([MkTemp temp_dir; Run cmd], Raise MarkupError).
Proof.
  intro Hr. unfold prepare_audio.
  rewrite not_wav, ffmpeg_found, temp_made.
  cbn -[convert_cmd converted_path console_print renders]. fold cmd. rewrite Hr.
  cbn [Z.eqb negb]. fold output_path.
  destruct (renders console (preparing_audio_panel output_path)) eqn:Hp;
    [rewrite (console_print_shown _ _ Hp)
    | rewrite (console_print_rejected _ _ Hp)];
    reflexivity.
Qed.

End PrepareAudio.

(** *** The request, branch by branch *)

Section Request.

Variables (env : Env) (console : Console) (args : Args).
Variables (upload_path : Path) (temp_dir : option string).

Let the_request : M (Z + Response * float) :=
  request env console args upload_path temp_dir (form_data args)
    (upload_content_type upload_path).

Lemma request_unreadable :
  can_open env upload_path = false ->
  the_request = (cleanup_trace temp_dir, Raise OSError).
Proof.
  intro H. unfold the_request, request, send. rewrite H.
  destruct temp_dir; reflexivity.
Qed.

Hypothesis readable : can_open env upload_path = true.

Lemma request_refused (msg : string) :
  answer env args upload_path = Raise (RequestError msg) ->
  the_request
  = if renders console (network_error_panel msg)
    then (((request_effects args upload_path
            ++ [Print (network_error_panel msg)])
           ++ cleanup_trace temp_dir)%list,
          Ok (inl 1))
    else ((request_effects args upload_path ++ cleanup_trace temp_dir)%list,
          Raise MarkupError).
Proof.
  intro Ha. unfold the_request, request, send. rewrite readable. cbv zeta.
  unfold answer in Ha. rewrite Ha.
  destruct (renders console (network_error_panel msg)) eqn:Hp;
    cbn -[console_print renders];
    [rewrite (console_print_shown _ _ Hp)
    | rewrite (console_print_rejected _ _ Hp)];
    destruct temp_dir; reflexivity.
Qed.

Lemma request_not_sent (e : Exc) :
  answer env args upload_path = Raise e ->
  (forall msg, e <> RequestError msg) ->
  the_request
  = ((request_effects args upload_path ++ cleanup_trace temp_dir)%list,
     Raise e).
Proof.
  intros Ha He. unfold the_request, request, send. rewrite readable.
  cbv zeta. unfold answer in Ha. rewrite Ha.
  destruct e; try (destruct temp_dir; reflexivity).
  now destruct (He msg).
Qed.

Lemma request_answered (response : Response) :
  answer env args upload_path = Ok response ->
  the_request
  = ((request_effects args upload_path ++ cleanup_trace temp_dir)%list,
     Ok (inr (response, measured env))).
Proof.
  intro Ha. unfold the_request, request, send. rewrite readable. cbv zeta.
  unfold answer in Ha. rewrite Ha. destruct temp_dir; reflexivity.
Qed.

End Request.

(** *** What the renderer leaves in the trace *)

Create HintDb prints discriminated.

Lemma prints_app (t t' : list Effect) :
  forallb is_print t = true -> forallb is_print t' = true ->
  forallb is_print (t ++ t') = true.
Proof. intros H H'. rewrite forallb_app, H, H'. reflexivity. Qed.

Lemma prints_lift {A : Type} (r : result A) :
  forallb is_print (trace (lift r)) = true.
Proof. reflexivity. Qed.

Lemma prints_console_print (console : Console) (r : Renderable) :
  forallb is_print (trace (console_print console r)) = true.
Proof. unfold console_print. destruct (renders console r); reflexivity. Qed.

Lemma prints_ret {A : Type} (a : A) :
  forallb is_print (trace (ret a)) = true.
Proof. reflexivity. Qed.

Lemma prints_mbind {A B : Type} (m : M A) (k : A -> M B) :
  forallb is_print (trace m) = true ->
  (forall a, forallb is_print (trace (k a)) = true) ->
  forallb is_print (trace (mbind m k)) = true.
Proof.
  intros Hm Hk. rewrite trace_mbind. apply prints_app; [exact Hm |].
  destruct (outcome m); [apply Hk | reflexivity].
Qed.

#[local] Hint Resolve prints_lift prints_console_print prints_ret : prints.
#[local] Hint Extern 2 (forallb is_print (trace (mbind _ _)) = true) =>
  apply prints_mbind; [| intro] : prints.

Lemma prints_render_result (console : Console) (payload : JValue)
    (result : list (string * JValue)) :
  forallb is_print (trace (render_result console payload result)) = true.
Proof.
  unfold render_result. apply prints_mbind.
  - destruct (truthy (dict_get result "text")); auto with prints.
  - intros _.
    destruct (dict_get result "segments") as [ | | | | | [| seg rest] | ];
      auto with prints.
Qed.

Lemma prints_print_result (console : Console) (response : Response)
    (elapsed : float) :
  forallb is_print (trace (print_result console response elapsed)) = true.
Proof.
  unfold print_result. apply prints_mbind; [apply prints_console_print |].
  intros _.
  apply prints_mbind; [apply prints_lift |]. intro payload.
  unfold render_payload.
  destruct payload; auto with prints;
    match goal with |- context [extract_result ?v] =>
      destruct (extract_result v) end;
    auto using prints_render_result with prints.
Qed.

Lemma prints_not_other (t : list Effect) (e : Effect) :
  forallb is_print t = true -> In e t -> is_print e = true.
Proof. intros H Hin. rewrite forallb_forall in H. now apply H. Qed.


Lemma live_after_prints (t : list Effect) (live : list string) :
  forallb is_print t = true -> live_after live t = live.
Proof.
  induction t as [| e t IH]; [reflexivity |].
  destruct e; simpl; try discriminate. exact IH.
Qed.

(** *** [transcribe], branch by branch *)

Section Transcribe.

Variables (env : Env) (console : Console) (args : Args).
Variables (file_path upload_path : Path) (temp_dir : option string).

Let asr : Effect := Print (whisper_asr_panel args file_path upload_path).
Let sent : list Effect := request_effects args upload_path.
Let run_ : M Z := transcribe env console args file_path upload_path temp_dir.

Lemma transcribe_unannounced :
  renders console (whisper_asr_panel args file_path upload_path) = false ->
  run_ = ([], Raise MarkupError).
Proof.
  intro H. unfold run_, transcribe. cbv zeta.
  now rewrite (console_print_rejected _ _ H).
Qed.

Hypothesis announced :
  renders console (whisper_asr_panel args file_path upload_path) = true.

Lemma transcribe_unreadable :
  can_open env upload_path = false ->
  run_ = (asr :: cleanup_trace temp_dir, Raise OSError).
Proof.
  intro H. unfold run_, transcribe. cbv zeta.
  rewrite (console_print_shown _ _ announced).
  rewrite (request_unreadable _ _ _ _ _ H). reflexivity.
Qed.

Hypothesis readable : can_open env upload_path = true.

Lemma transcribe_refused (msg : string) :
  answer env args upload_path = Raise (RequestError msg) ->
  run_
  = if renders console (network_error_panel msg)
    then (asr :: ((sent ++ [Print (network_error_panel msg)])
                  ++ cleanup_trace temp_dir)%list,
          Ok 1)
    else (asr :: (sent ++ cleanup_trace temp_dir)%list, Raise MarkupError).
Proof.
  intro Ha. unfold run_, transcribe. cbv zeta.
  rewrite (console_print_shown _ _ announced).
  rewrite (request_refused _ _ _ _ _ readable _ Ha).
  destruct (renders console (network_error_panel msg)); cbn;
    rewrite ?app_nil_r; reflexivity.
Qed.

Lemma transcribe_not_sent (e : Exc) :
  answer env args upload_path = Raise e ->
  (forall msg, e <> RequestError msg) ->
  run_ = (asr :: (sent ++ cleanup_trace temp_dir)%list, Raise e).
Proof.
  intros Ha He. unfold run_, transcribe. cbv zeta.
  rewrite (console_print_shown _ _ announced).
  rewrite (request_not_sent _ _ _ _ _ readable _ Ha He). reflexivity.
Qed.

Lemma transcribe_http_error (response : Response) :
  answer env args upload_path = Ok response ->
  is_error response = true ->
  run_
  = if renders console (http_error_panel response)
    then (asr :: (sent ++ cleanup_trace temp_dir
                  ++ [Print (http_error_panel response)])%list,
          Ok 1)
    else (asr :: (sent ++ cleanup_trace temp_dir)%list, Raise MarkupError).
Proof.
  intros Ha He. unfold run_, transcribe. cbv zeta.
  rewrite (console_print_shown _ _ announced).
  rewrite (request_answered _ _ _ _ _ readable _ Ha).
  cbn -[http_error_panel console_print renders]. rewrite He.
  destruct (renders console (http_error_panel response)) eqn:Hp;
    [rewrite (console_print_shown _ _ Hp)
    | rewrite (console_print_rejected _ _ Hp)];
    cbn -[http_error_panel]; rewrite ?app_nil_r, <- ?app_assoc; reflexivity.
Qed.

Lemma transcribe_rendered (response : Response) :
  answer env args upload_path = Ok response ->
  is_error response = false ->
  run_
  = (asr :: (sent ++ cleanup_trace temp_dir
             ++ trace (print_result console response (measured env)))%list,
     match outcome (print_result console response (measured env)) with
     | Ok _ => Ok 0
     | Raise e => Raise e
     end).
Proof.
  intros Ha He. unfold run_, transcribe. cbv zeta.
  rewrite (console_print_shown _ _ announced).
  rewrite (request_answered _ _ _ _ _ readable _ Ha).
  cbn -[print_result measured]. rewrite He.
  destruct (print_result console response (measured env)) as [t [[] | e]];
    cbn; rewrite ?app_nil_r, <- ?app_assoc; reflexivity.
Qed.

End Transcribe.

(** *** [main] *)

Lemma main_no_home (args : Args) (env : Env) (e : Exc) :
  expanduser env (file args) = Raise e -> main args env = ([], Raise e).
Proof. intro H. unfold main. cbv zeta. now rewrite H. Qed.

Lemma main_no_stat (args : Args) (env : Env) (file_path : Path) (e : Exc) :
  expanduser env (file args) = Ok file_path ->
  is_file env file_path = Raise e ->
  main args env = ([], Raise e).
Proof.
  intros Hp Hf. unfold main. cbv zeta. rewrite Hp.
  cbn -[console_print prepare_audio transcribe]. now rewrite Hf.
Qed.

Lemma main_missing (args : Args) (env : Env) (file_path : Path) :
  located args env file_path false ->
  main args env
  = if renders (new_console env) (file_not_found_panel file_path)
    then ([Print (file_not_found_panel file_path)], Ok 2)
    else ([], Raise MarkupError).
Proof.
  intros [Hp Hf]. unfold main. cbv zeta. rewrite Hp.
  cbn -[console_print prepare_audio transcribe renders]. rewrite Hf.
  cbn -[console_print prepare_audio transcribe renders].
  destruct (renders (new_console env) (file_not_found_panel file_path))
    eqn:Hr;
    [rewrite (console_print_shown _ _ Hr)
    | rewrite (console_print_rejected _ _ Hr)];
    reflexivity.
Qed.

Lemma main_found (args : Args) (env : Env) (file_path : Path) :
  located args env file_path true ->
  main args env
  = mbind (prepare_audio env (new_console env) file_path
             (negb (no_convert args)))
      (after_prepare env args file_path).
Proof.
  intros [Hp Hf]. unfold main. cbv zeta. rewrite Hp.
  cbn -[console_print prepare_audio transcribe]. rewrite Hf.
  cbn -[console_print prepare_audio transcribe].
  destruct (prepare_audio _ _ _ _) as [t [[[upload_path |] temp_dir] | e]];
    cbn -[transcribe]; rewrite ?app_nil_r; try reflexivity.
  destruct (transcribe _ _ _ _ _ _). reflexivity.
Qed.

Lemma main_prepared (args : Args) (env : Env) (file_path : Path)
    (t : list Effect) (upload_path : Path) (temp_dir : option string) :
  located args env file_path true ->
  prepare_audio env (new_console env) file_path (negb (no_convert args))
  = (t, Ok (Some upload_path, temp_dir)) ->
  main args env
  = ((t ++ trace (transcribe env (new_console env) args file_path
                    upload_path temp_dir))%list,
     outcome (transcribe env (new_console env) args file_path upload_path
                temp_dir)).
Proof.
  intros Hf Hp. rewrite (main_found _ _ _ Hf), Hp.
  unfold mbind, after_prepare.
  destruct (transcribe _ _ _ _ _ _). reflexivity.
Qed.

Lemma main_unprepared (args : Args) (env : Env) (file_path : Path)
    (t : list Effect) (temp_dir : option string) :
  located args env file_path true ->
  prepare_audio env (new_console env) file_path (negb (no_convert args))
  = (t, Ok (None, temp_dir)) ->
  main args env = (t, Ok 2).
Proof.
  intros Hf Hp. rewrite (main_found _ _ _ Hf), Hp.
  unfold mbind, after_prepare. cbn. now rewrite app_nil_r.
Qed.

Lemma main_not_prepared (args : Args) (env : Env) (file_path : Path)
    (t : list Effect) (e : Exc) :
  located args env file_path true ->
  prepare_audio env (new_console env) file_path (negb (no_convert args))
  = (t, Raise e) ->
  main args env = (t, Raise e).
Proof. intros Hf Hp. now rewrite (main_found _ _ _ Hf), Hp. Qed.

(** The runs that reach [transcribe]. *)
Lemma transcribe_cases (args : Args) (env : Env) (file_path : Path)
    (pre : list Effect) (upload_path : Path) (temp_dir : option string) :
  located args env file_path true ->
  Source args env file_path pre upload_path temp_dir ->
  prepare_audio env (new_console env) file_path (negb (no_convert args))
  = (pre, Ok (Some upload_path, temp_dir)) ->
  Finished args env (main args env).
Proof.
  intros Hloc Hsrc Hprep. rewrite (main_prepared _ _ _ _ _ _ Hloc Hprep).
  destruct (renders (new_console env)
              (whisper_asr_panel args file_path upload_path)) eqn:Hasr.
  - destruct (can_open env upload_path) eqn:Hopen.
    + destruct (answer env args upload_path) as [response | e] eqn:Ha.
      * destruct (is_error response) eqn:He.
        -- rewrite (transcribe_http_error _ _ _ _ _ _ Hasr Hopen _ Ha He).
           destruct (renders _ (http_error_panel response)) eqn:Hr.
           ++ now apply FinishedHttpError.
           ++ now apply (FinishedHttpErrorUnreported _ _ file_path pre
                           upload_path temp_dir response).
        -- rewrite (transcribe_rendered _ _ _ _ _ _ Hasr Hopen _ Ha He).
           now apply FinishedRendered.
      * assert (Hreq : (exists msg, e = RequestError msg)
                       \/ forall msg, e <> RequestError msg)
          by (destruct e; try (right; discriminate); left; now exists msg).
        destruct Hreq as [(msg & ->) | Hreq].
        -- rewrite (transcribe_refused _ _ _ _ _ _ Hasr Hopen _ Ha).
           destruct (renders _ (network_error_panel msg)) eqn:Hr.
           ++ now apply FinishedRefused.
           ++ now apply (FinishedRefusedUnreported _ _ file_path pre
                           upload_path temp_dir msg).
        -- rewrite (transcribe_not_sent _ _ _ _ _ _ Hasr Hopen _ Ha Hreq).
           now apply FinishedNotSent.
    + rewrite (transcribe_unreadable _ _ _ _ _ _ Hasr Hopen).
      now apply FinishedUnreadable.
  - rewrite (transcribe_unannounced _ _ _ _ _ _ Hasr).
    cbn [trace outcome fst snd]. rewrite app_nil_r.
    now apply (FinishedUnannounced _ _ file_path pre upload_path temp_dir).
Qed.

(** Every run of [main] is one of those of [Finished]. *)
Lemma main_cases (args : Args) (env : Env) :
  Finished args env (main args env).
Proof.
  destruct (expanduser env (file args)) as [file_path | e] eqn:Hhome;
    [| rewrite (main_no_home _ _ _ Hhome); now constructor].
  destruct (is_file env file_path) as [found | e] eqn:Hstat;
    [| rewrite (main_no_stat _ _ _ _ Hhome Hstat);
       now apply (FinishedNoStat _ _ file_path)].
  assert (Hloc : located args env file_path found) by now split.
  destruct found.
  2: { rewrite (main_missing _ _ _ Hloc).
       destruct (renders _ (file_not_found_panel file_path)) eqn:Hr.
       - now apply FinishedMissing.
       - now apply (FinishedMissingUnreported _ _ file_path). }
  destruct (is_wav file_path) eqn:Hwav.
  { apply (transcribe_cases _ _ file_path [] file_path None Hloc).
    - now constructor.
    - now apply prepare_audio_wav. }
  destruct (no_convert args) eqn:Hno.
  { rewrite (main_unprepared _ _ _ [Print unsupported_format_panel] None Hloc).
    - now apply (FinishedUnsupported _ _ file_path).
    - rewrite Hno. now apply prepare_audio_unsupported. }
  destruct (nonempty (which env "ffmpeg")) eqn:Hff.
  2: { rewrite (main_unprepared _ _ _ [Print missing_dependency_panel] None
                  Hloc).
       - now apply (FinishedNoTranscoder _ _ file_path).
       - rewrite Hno. now apply prepare_audio_missing. }
  destruct (mkdtemp env) as [temp_dir | e] eqn:Htemp.
  2: { rewrite (main_not_prepared _ _ _ [] e Hloc).
       - now apply (FinishedNoTemp _ _ file_path).
       - rewrite Hno. now apply prepare_audio_no_temp. }
  destruct (run env (convert_cmd env temp_dir file_path))
    as [[returncode stderr] | e] eqn:Hrun.
  2: { rewrite (main_not_prepared _ _ _ _ e Hloc
                  ltac:(rewrite Hno;
                        now apply (prepare_audio_not_run _ _ _ Hwav Hff _
                                     Htemp))).
       now apply (FinishedNotRun _ _ file_path). }
  destruct (Z.eq_dec returncode 0) as [-> | Hrc].
  - pose proof (prepare_audio_converted env (new_console env) _ Hwav Hff _
                  Htemp _ Hrun) as Hprep.
    destruct (renders _ (preparing_audio_panel _)) eqn:Hr.
    + apply (transcribe_cases _ _ file_path
               [MkTemp temp_dir; Run (convert_cmd env temp_dir file_path);
                Print (preparing_audio_panel
                         (converted_path temp_dir file_path))]
               (converted_path temp_dir file_path) (Some temp_dir) Hloc).
      * now apply (SourceConverted _ _ _ temp_dir stderr).
      * rewrite Hno. exact Hprep.
    + rewrite (main_not_prepared _ _ _ _ _ Hloc
                 ltac:(rewrite Hno; exact Hprep)).
      now apply (FinishedConvertedUnreported _ _ file_path temp_dir stderr).
  - pose proof (prepare_audio_failed env (new_console env) _ Hwav Hff _
                  Htemp _ _ Hrun Hrc) as Hprep.
    destruct (renders _ (conversion_error_panel stderr)) eqn:Hr.
    + rewrite (main_unprepared _ _ _ _ _ Hloc
                 ltac:(rewrite Hno; exact Hprep)).
      now apply (FinishedNotConverted _ _ file_path temp_dir returncode).
    + rewrite (main_not_prepared _ _ _ _ _ Hloc
                 ltac:(rewrite Hno; exact Hprep)).
      now apply (FinishedNotConvertedUnreported _ _ file_path temp_dir
                   returncode stderr).
Qed.

(** What [prepare_audio] has done when it hands a path to [main]. *)
Lemma source_cases (args : Args) (env : Env) (file_path : Path)
    (t : list Effect) (upload_path : Path) (temp_dir : option string) :
  prepare_audio env (new_console env) file_path (negb (no_convert args))
  = (t, Ok (Some upload_path, temp_dir)) ->
  Source args env file_path t upload_path temp_dir.
Proof.
  destruct (is_wav file_path) eqn:Hw.
  { rewrite (prepare_audio_wav _ _ _ _ Hw). intro H. injection H as <- <- <-.
    now constructor. }
  destruct (no_convert args) eqn:Hn; cbn [negb].
  { rewrite (prepare_audio_unsupported _ _ _ Hw). discriminate. }
  destruct (nonempty (which env "ffmpeg")) eqn:Hf.
  2: { rewrite (prepare_audio_missing _ _ _ Hw Hf). discriminate. }
  destruct (mkdtemp env) as [d | e] eqn:Htemp.
  2: { rewrite (prepare_audio_no_temp _ _ _ Hw Hf _ Htemp). discriminate. }
  destruct (run env (convert_cmd env d file_path))
    as [[returncode stderr] | e] eqn:Hrun.
  2: { rewrite (prepare_audio_not_run _ _ _ Hw Hf _ Htemp _ Hrun).
       discriminate. }
  destruct (Z.eq_dec returncode 0) as [-> | Hrc].
  - rewrite (prepare_audio_converted _ _ _ Hw Hf _ Htemp _ Hrun).
    destruct (renders _ (preparing_audio_panel _)) eqn:Hr; [| discriminate].
    intro H. injection H as <- <- <-.
    now apply (SourceConverted _ _ _ d stderr).
  - rewrite (prepare_audio_failed _ _ _ Hw Hf _ Htemp _ _ Hrun Hrc).
    destruct (renders _ (conversion_error_panel stderr)); discriminate.
Qed.

(** Brings the goal to the runs of [main], with the source file and the
    trace of the preparation made explicit. *)
Ltac by_run args env :=
  destruct (main_cases args env);
  repeat match goal with
    | H : located _ _ _ _ |- _ => destruct H
    | H : Source _ _ _ _ _ _ |- _ => destruct H
    end;
  cbn [trace outcome fst snd].

(** C5 (amended): [main] returns, and the process exits with, 2 when the
    source file is missing, when it is not WAV and conversion is disabled
    (and then no request is made), when the transcoder is missing and when
    it fails, each time once the report is shown; 1 when the request fails
    in transport and when the response has an error status, again once the
    report is shown; and, for a response without an error status, 0 when
    its rendering completes, while an exception of the rendering leaves
    [main] and the process exits with 1. *)
Theorem main_exit_codes (args : Args) (env : Env) (file_path : Path) :
  expanduser env (file args) = Ok file_path ->
  let console := new_console env in
  (is_file env file_path = Ok false ->
   renders console (file_not_found_panel file_path) = true ->
   outcome (main args env) = Ok 2)
  /\ (is_wav file_path = false ->
      no_convert args = true ->
      existsb is_post (trace (main args env)) = false
      /\ (is_file env file_path = Ok true ->
          outcome (main args env) = Ok 2))
  /\ (is_file env file_path = Ok true ->
      is_wav file_path = false ->
      no_convert args = false ->
      nonempty (which env "ffmpeg") = false ->
      outcome (main args env) = Ok 2)
  /\ (forall temp_dir returncode stderr,
         is_file env file_path = Ok true ->
         is_wav file_path = false ->
         no_convert args = false ->
         nonempty (which env "ffmpeg") = true ->
         mkdtemp env = Ok temp_dir ->
         run env (convert_cmd env temp_dir file_path)
         = Ok (returncode, stderr) ->
         returncode <> 0 ->
         renders console (conversion_error_panel stderr) = true ->
         outcome (main args env) = Ok 2)
  /\ (forall t upload_path temp_dir,
         is_file env file_path = Ok true ->
         prepare_audio env console file_path (negb (no_convert args))
         = (t, Ok (Some upload_path, temp_dir)) ->
         renders console (whisper_asr_panel args file_path upload_path)
         = true ->
         can_open env upload_path = true ->
         (forall msg,
             answer env args upload_path = Raise (RequestError msg) ->
             renders console (network_error_panel msg) = true ->
             outcome (main args env) = Ok 1)
         /\ (forall response,
                answer env args upload_path = Ok response ->
                is_error response = true ->
                renders console (http_error_panel response) = true ->
                outcome (main args env) = Ok 1)
         /\ (forall response,
                answer env args upload_path = Ok response ->
                is_error response = false ->
                outcome (main args env)
                = match
                    outcome (print_result console response (measured env))
                  with
                  | Ok _ => Ok 0
                  | Raise e => Raise e
                  end
                /\ exit_status (main args env)
                   = match
                       outcome (print_result console response (measured env))
                     with
                     | Ok _ => 0
                     | Raise _ => 1
                     end)).
Proof.
  intros Hhome console. subst console.
  assert (Hloc : forall found,
             is_file env file_path = Ok found ->
             located args env file_path found) by (intros; now split).
  split; [| split; [| split; [| split]]].
  - intros Hf Hr. now rewrite (main_missing _ _ _ (Hloc _ Hf)), Hr.
  - intros Hw Hn.
    destruct (is_file env file_path) as [[|] | e] eqn:Hf.
    + rewrite (main_unprepared args env _ [Print unsupported_format_panel]
                 None (Hloc _ eq_refl)).
      * now split.
      * rewrite Hn. now apply prepare_audio_unsupported.
    + rewrite (main_missing _ _ _ (Hloc _ eq_refl)).
      destruct (renders _ _); split; try reflexivity; discriminate.
    + rewrite (main_no_stat _ _ _ _ Hhome Hf).
      split; [reflexivity | discriminate].
  - intros Hf Hw Hn Hff.
    rewrite (main_unprepared args env _ [Print missing_dependency_panel] None
               (Hloc _ Hf));
      [reflexivity |].
    rewrite Hn. now apply prepare_audio_missing.
  - intros temp_dir returncode stderr Hf Hw Hn Hff Htemp Hrun Hrc Hr.
    pose proof (prepare_audio_failed env (new_console env) _ Hw Hff _ Htemp
                  _ _ Hrun Hrc) as Hprep.
    rewrite Hr in Hprep.
    rewrite (main_unprepared args env _ _ None (Hloc _ Hf)
               ltac:(rewrite Hn; exact Hprep)).
    reflexivity.
  - intros t upload_path temp_dir Hf Hp Hasr Hopen.
    assert (Hmain := main_prepared _ _ _ _ _ _ (Hloc _ Hf) Hp).
    split; [| split].
    + intros msg Ha Hr. rewrite Hmain.
      rewrite (transcribe_refused _ _ _ _ _ _ Hasr Hopen _ Ha), Hr.
      reflexivity.
    + intros response Ha He Hr. rewrite Hmain.
      rewrite (transcribe_http_error _ _ _ _ _ _ Hasr Hopen _ Ha He), Hr.
      reflexivity.
    + intros response Ha He. unfold exit_status. rewrite Hmain.
      rewrite (transcribe_rendered _ _ _ _ _ _ Hasr Hopen _ Ha He).
      destruct (print_result (new_console env) response (measured env))
        as [tr [[] | e]]; split; reflexivity.
Qed.

Lemma main_exit_codes_witness :
  outcome (main m4a_args (sample_env false ffmpeg_path 0 hello_reply)) = Ok 2
  /\ (existsb is_post (trace (main (sample_args "clip.m4a" true) working_env))
      = false
      /\ outcome (main (sample_args "clip.m4a" true) working_env) = Ok 2)
  /\ outcome (main m4a_args (sample_env true None 0 hello_reply)) = Ok 2
  /\ outcome (main m4a_args failing_env) = Ok 2
  /\ outcome (main wav_args
                (sample_env true ffmpeg_path 0
                   (Raise (RequestError "connection refused"))))
     = Ok 1
  /\ outcome (main m4a_args
                (sample_env true ffmpeg_path 0 (Ok not_found_response)))
     = Ok 1
  /\ outcome (main m4a_args working_env) = Ok 0.
Proof.
  split; [| split; [| split; [| split; [| split; [| split]]]]].
  - apply (proj1 (main_exit_codes m4a_args
                    (sample_env false ffmpeg_path 0 hello_reply)
                    (file m4a_args) eq_refl));
      reflexivity.
  - destruct (proj1 (proj2 (main_exit_codes (sample_args "clip.m4a" true)
                              working_env
                              (file (sample_args "clip.m4a" true)) eq_refl))
                eq_refl eq_refl) as [Hpost Hcode].
    split; [exact Hpost | exact (Hcode eq_refl)].
  - apply (proj1 (proj2 (proj2 (main_exit_codes m4a_args
                                  (sample_env true None 0 hello_reply)
                                  (file m4a_args) eq_refl))));
      reflexivity.
  - apply (proj1 (proj2 (proj2 (proj2 (main_exit_codes m4a_args failing_env
                                         (file m4a_args) eq_refl))))
             "/tmp/tmpk3v9" 1 "clip.m4a: Invalid data found");
      try reflexivity.
    discriminate.
  - destruct (proj2 (proj2 (proj2 (proj2
                (main_exit_codes wav_args
                   (sample_env true ffmpeg_path 0
                      (Raise (RequestError "connection refused")))
                   (file wav_args) eq_refl))))
                [] (file wav_args) None eq_refl eq_refl eq_refl eq_refl)
      as (Hrefused & _ & _).
    exact (Hrefused "connection refused" eq_refl eq_refl).
  - destruct (proj2 (proj2 (proj2 (proj2
                (main_exit_codes m4a_args
                   (sample_env true ffmpeg_path 0 (Ok not_found_response))
                   (file m4a_args) eq_refl))))
                _ _ _ eq_refl eq_refl eq_refl eq_refl)
      as (_ & Herror & _).
    exact (Herror not_found_response eq_refl eq_refl eq_refl).
  - destruct (proj2 (proj2 (proj2 (proj2
                (main_exit_codes m4a_args working_env (file m4a_args)
                   eq_refl))))
                _ _ _ eq_refl eq_refl eq_refl eq_refl)
      as (_ & _ & Hok).
    exact (proj1 (Hok (json_response hello_body hello_payload)
                    eq_refl eq_refl)).
Defined.

(** C5 as stated fails.  A response without an error status whose body does
    not decode under a JSON content type is no failure of the transport and
    no error response, and the process exits with 1; and for a missing file
    whose name holds a closing tag the report is rejected and the process
    exits with 1, not 2. *)
Lemma exit_status_one_unforeseen :
  is_error undecodable_response = false
  /\ exit_status
       (main wav_args
          (sample_env true ffmpeg_path 0 (Ok undecodable_response)))
     = 1
  /\ is_file missing_env (file tagged_name_args) = Ok false
  /\ exit_status (main tagged_name_args missing_env) = 1.
Proof. repeat split; vm_compute; reflexivity. Qed.






(** Takes a membership in a trace of [main] apart, effect by effect. *)
Ltac in_trace Hin :=
  repeat first
    [ rewrite in_app_iff in Hin
    | progress cbn [In request_effects app cleanup_trace trace fst] in Hin ];
  repeat match type of Hin with
    | _ \/ _ => destruct Hin as [Hin | Hin]
    | False => destruct Hin
    end.

(** The only request of a run is the upload of the prepared audio. *)
Lemma post_in_main (args : Args) (env : Env) (e : Effect) :
  In e (trace (main args env)) ->
  is_post e = true ->
  exists file_path upload_path,
    e = the_post args upload_path
    /\ located args env file_path true
    /\ ((is_wav file_path = true /\ upload_path = file_path)
        \/ (is_wav file_path = false
            /\ exists temp_dir,
                 mkdtemp env = Ok temp_dir
                 /\ upload_path = converted_path temp_dir file_path)).
Proof.
  intros Hin Hpost.
  by_run args env; in_trace Hin;
    try (rewrite <- Hin in Hpost; discriminate Hpost);
    try (apply (prints_not_other _ _ (prints_print_result _ _ _)) in Hin;
         destruct e; discriminate).
  all: subst e; do 2 eexists; (split; [reflexivity |]);
    (split; [split; eassumption |]);
    first [ left; split; [assumption | reflexivity]
          | right; split; [assumption |];
            eexists; split; [eassumption | reflexivity] ].
Qed.

Lemma form_data_language (args : Args) :
  In "language" (keys (form_data args)) <-> nonempty (language args) = true.
Proof.
  unfold form_data, keys.
  destruct (nonempty (language args)), (nonempty (prompt args)); simpl;
    intuition discriminate.
Qed.

Lemma form_data_prompt (args : Args) :
  In "prompt" (keys (form_data args)) <-> nonempty (prompt args) = true.
Proof.
  unfold form_data, keys.
  destruct (nonempty (language args)), (nonempty (prompt args)); simpl;
    intuition discriminate.
Qed.

(** C7: the form of the request always has [temperature],
    [temperature_inc] and [response_format], has [language] and [prompt]
    exactly when they are non-empty, and its file part is named [file], with
    the content type [audio/wav] when the uploaded path has the suffix
    [.wav] in any case and [application/octet-stream] otherwise.  A WAV
    source is uploaded as it is, as [audio/wav]; a converted one is uploaded
    from the temporary directory, as [audio/wav] too. *)
Theorem request_form (args : Args) (env : Env) (u : string)
    (data : list (string * FormValue)) (files : FilePart) (tmo : float) :
  In (Post u data files tmo) (trace (main args env)) ->
  (In ("temperature", FloatRepr (temperature args)) data
   /\ In ("temperature_inc", FloatRepr (temperature_inc args)) data
   /\ In ("response_format", Plain (response_format args)) data)
  /\ (In "language" (keys data) <-> nonempty (language args) = true)
  /\ (In "prompt" (keys data) <-> nonempty (prompt args) = true)
  /\ field files = "file"
  /\ content_type files
     = (if is_wav (handle files) then "audio/wav"
        else "application/octet-stream")
  /\ exists file_path,
       expanduser env (file args) = Ok file_path
       /\ (is_wav file_path = true ->
           handle files = file_path /\ content_type files = "audio/wav")
       /\ (is_wav file_path = false ->
           exists temp_dir,
             mkdtemp env = Ok temp_dir
             /\ handle files = converted_path temp_dir file_path
             /\ content_type files = "audio/wav").
Proof.
  intros Hin.
  destruct (post_in_main args env _ Hin eq_refl)
    as (file_path & upload_path & He & [Hhome Hf] & Hup).
  unfold the_post in He. injection He as -> -> -> ->.
  split; [| split; [| split; [| split; [| split]]]].
  - unfold form_data. simpl. split; [| split]; auto 10.
  - apply form_data_language.
  - apply form_data_prompt.
  - reflexivity.
  - reflexivity.
  - exists file_path. split; [exact Hhome | split].
    + intro Hw. destruct Hup as [[_ ->] | [Hw' _]]; [| congruence].
      cbn [handle upload_part content_type]. unfold upload_content_type.
      now rewrite Hw.
    + intros Hw.
      destruct Hup as [[Hw' _] | (_ & temp_dir & Htemp & ->)]; [congruence |].
      exists temp_dir. split; [exact Htemp |].
      cbn [handle upload_part content_type].
      unfold upload_content_type, converted_path.
      now rewrite (is_wav_converted _ _
                     (stem_nonempty _ (is_file_named env _ Hf))).
Qed.

Lemma request_form_witness :
  In (the_post m4a_args (converted_path "/tmp/tmpk3v9" (file m4a_args)))
    (trace (main m4a_args working_env))
  /\ (In "language" (keys (form_data m4a_args))
      <-> nonempty (language m4a_args) = true)
  /\ (In "prompt" (keys (form_data m4a_args))
      <-> nonempty (prompt m4a_args) = true)
  /\ content_type
       (upload_part (converted_path "/tmp/tmpk3v9" (file m4a_args))
          "audio/wav")
     = "audio/wav".
Proof.
  assert (Hin : In (Post (url m4a_args) (form_data m4a_args)
                      (upload_part
                         (converted_path "/tmp/tmpk3v9" (file m4a_args))
                         "audio/wav")
                      (timeout m4a_args))
                  (trace (main m4a_args working_env))).
  { vm_compute. do 5 right. left. reflexivity. }
  split; [exact Hin |].
  pose proof (request_form m4a_args working_env _ _ _ _ Hin) as H.
  destruct H as (_ & Hl & Hp & _ & Hc & _).
  split; [exact Hl | split; [exact Hp |]].
  exact Hc.
Defined.

(** * Further properties *)

(** ** The time formatter *)

Lemma format_0d_digits (width : nat) (bound : nat) (z : Z) :
  forallb (fun n => digits_of_width width (format_0d width (Z.of_nat n)))
    (seq 0 bound) = true ->
  0 <= z < Z.of_nat bound ->
  digits_of_width width (format_0d width z) = true.
Proof.
  intros Hall Hz. rewrite forallb_forall in Hall.
  specialize (Hall (Z.to_nat z)). rewrite Z2Nat.id in Hall by lia.
  apply Hall, in_seq. lia.
Qed.

Lemma append_assoc (a b c : string) : (a ++ b) ++ c = a ++ b ++ c.
Proof. induction a as [| x a IH]; simpl; [reflexivity | now rewrite IH]. Qed.

Lemma two_digits (z : Z) :
  0 <= z < 100 -> digits_of_width 2 (format_0d 2 z) = true.
Proof. apply (format_0d_digits 2 100). vm_compute. reflexivity. Qed.

Lemma three_digits (z : Z) :
  0 <= z < 1000 -> digits_of_width 3 (format_0d 3 z) = true.
Proof. apply (format_0d_digits 3 1000). vm_compute. reflexivity. Qed.

(** X1: a time from zero to just under a hundred hours is shown in fixed
    width: two digits each for minutes and seconds and three for the
    milliseconds, preceded by two digits of hours exactly when the time
    reaches one hour. *)
Theorem format_seconds_fixed_width (value : JValue) (ms : Z) :
  convert_ms value = Ok ms ->
  0 <= ms < 360000000 ->
  exists hh mm ss mmm,
    format_seconds value
    = Ok ((if ms <? 3600000 then "" else hh ++ ":")
          ++ mm ++ ":" ++ ss ++ "." ++ mmm)
    /\ digits_of_width 2 hh = true
    /\ digits_of_width 2 mm = true
    /\ digits_of_width 2 ss = true
    /\ digits_of_width 3 mmm = true.
Proof.
  intros Hms Hrange. rewrite (format_seconds_ok _ _ Hms). unfold clock.
  assert (Hh : 0 <= ms / 3600000 < 100)
    by (split; [apply Z.div_pos | apply Z.div_lt_upper_bound]; lia).
  pose proof (Z.mod_pos_bound ms 3600000 ltac:(lia)) as Hr.
  assert (Hm : 0 <= ms mod 3600000 / 60000 < 100)
    by (split; [apply Z.div_pos | apply Z.div_lt_upper_bound]; lia).
  pose proof (Z.mod_pos_bound (ms mod 3600000) 60000 ltac:(lia)) as Hr'.
  assert (Hs : 0 <= ms mod 3600000 mod 60000 / 1000 < 100)
    by (split; [apply Z.div_pos | apply Z.div_lt_upper_bound]; lia).
  pose proof (Z.mod_pos_bound (ms mod 3600000 mod 60000) 1000 ltac:(lia))
    as Hr''.
  exists (format_0d 2 (ms / 3600000)), (format_0d 2 (ms mod 3600000 / 60000)),
    (format_0d 2 (ms mod 3600000 mod 60000 / 1000)),
    (format_0d 3 (ms mod 3600000 mod 60000 mod 1000)).
  split; [| auto using two_digits, three_digits].
  cbv zeta. f_equal.
  destruct (ms <? 3600000) eqn:Hlt.
  - apply Z.ltb_lt in Hlt. rewrite (Z.div_small ms 3600000) by lia.
    reflexivity.
  - apply Z.ltb_ge in Hlt.
    assert (Hpos : 0 < ms / 3600000)
      by (apply Z.div_str_pos; lia).
    destruct (ms / 3600000 =? 0) eqn:Hz;
      [apply Z.eqb_eq in Hz; lia | now rewrite append_assoc].
Qed.

Lemma format_seconds_fixed_width_witness :
  exists hh mm ss mmm,
    format_seconds (JFloat 3725.0)
    = Ok ((if 3725000 <? 3600000 then "" else hh ++ ":")
          ++ mm ++ ":" ++ ss ++ "." ++ mmm)
    /\ digits_of_width 2 hh = true
    /\ digits_of_width 2 mm = true
    /\ digits_of_width 2 ss = true
    /\ digits_of_width 3 mmm = true.
Proof.
  apply (format_seconds_fixed_width (JFloat 3725.0) 3725000).
  - vm_compute. reflexivity.
  - lia.
Defined.

(** X2: the hours come from a floor division, so a time below zero, down
    to one hour, is shown as [-1:] followed by the clock of the time one
    hour later. *)
Theorem format_seconds_below_zero (value : JValue) (ms : Z) :
  convert_ms value = Ok ms ->
  - 3600000 <= ms < 0 ->
  format_seconds value = Ok ("-1:" ++ clock (ms + 3600000)).
Proof.
  intros Hms Hrange. rewrite (format_seconds_ok _ _ Hms). unfold clock.
  assert (Hq : ms / 3600000 = - 1)
    by (symmetry; apply (Z.div_unique ms 3600000 (- 1) (ms + 3600000)); lia).
  assert (Hr : ms mod 3600000 = ms + 3600000)
    by (symmetry; apply (Z.mod_unique ms 3600000 (- 1) (ms + 3600000)); lia).
  rewrite Hq, Hr.
  rewrite (Z.div_small (ms + 3600000) 3600000) by lia.
  rewrite (Z.mod_small (ms + 3600000) 3600000) by lia.
  reflexivity.
Qed.

Lemma format_seconds_below_zero_witness :
  format_seconds (JFloat (-0.001)) = Ok "-1:59:59.999".
Proof.
  apply (format_seconds_below_zero (JFloat (-0.001)) (- 1)).
  - vm_compute. reflexivity.
  - lia.
Defined.

(** X3: the only exception that leaves [format_seconds] is [OverflowError],
    and it does so exactly when the conversion to milliseconds overflows;
    whenever the function returns, it returns a dash or a clock string. *)
Theorem format_seconds_raises_only_overflow (value : JValue) :
  (forall e,
      format_seconds value = Raise e <->
      e = OverflowError /\ convert_ms value = Raise OverflowError)
  /\ (forall s,
         format_seconds value = Ok s ->
         s = "-" \/ exists ms, convert_ms value = Ok ms /\ s = clock ms).
Proof.
  destruct (convert_ms value) as [ms | e'] eqn:Hms.
  - rewrite (format_seconds_ok _ _ Hms). split.
    + intro e. split; [discriminate | intros [_ H]; discriminate H].
    + intros s H. injection H as <-. right. now exists ms.
  - destruct (convert_ms_exc _ _ Hms) as [-> | [-> | ->]].
    + rewrite format_seconds_unconvertible by auto. split.
      * intro e. split; [discriminate | intros [_ H]; discriminate H].
      * intros s H. injection H as <-. now left.
    + rewrite format_seconds_unconvertible by auto. split.
      * intro e. split; [discriminate | intros [_ H]; discriminate H].
      * intros s H. injection H as <-. now left.
    + rewrite (format_seconds_overflow _ Hms). split.
      * intro e. split; [intro H; injection H as <-; now split |].
        intros [-> _]. reflexivity.
      * intros s H. discriminate H.
Qed.

(** ** The segment table *)

Lemma format_seconds_overflows (value : JValue) :
  overflows value = true -> format_seconds value = Raise OverflowError.
Proof.
  unfold overflows. intro H. apply format_seconds_overflow.
  destruct (convert_ms value) as [ms | []]; try discriminate H; reflexivity.
Qed.

Lemma py_strip_not_text_like (v : JValue) :
  text_like v = false -> py_strip (or_empty v) = Raise AttributeError.
Proof.
  unfold text_like, or_empty. intro H. apply orb_false_elim in H.
  destruct H as [Ht Hs]. apply negb_false_iff in Ht. rewrite Ht.
  destruct v; try discriminate Hs; reflexivity.
Qed.

(** A segment that the table cannot show ends the loop with an
    [AttributeError] or an [OverflowError]. *)
Lemma segment_row_fails (idx : Z) (segment : JValue) :
  segment_ok segment = false ->
  exists e,
    segment_row idx segment = Raise e
    /\ (e = AttributeError \/ e = OverflowError).
Proof.
  destruct segment as [ | | | | | | d];
    try (intros _; exists AttributeError; split; [reflexivity | now left]).
  unfold segment_ok, segment_row. cbn [py_get bind].
  destruct (overflows (dict_get d "start")) eqn:Hstart.
  - intros _. rewrite (format_seconds_overflows _ Hstart).
    exists OverflowError. split; [reflexivity | now right].
  - rewrite (format_seconds_time_text _ Hstart). cbn [bind negb andb].
    destruct (overflows (dict_get d "end")) eqn:Hend.
    + intros _. rewrite (format_seconds_overflows _ Hend).
      exists OverflowError. split; [reflexivity | now right].
    + rewrite (format_seconds_time_text _ Hend). cbn [bind negb andb].
      intro Htext. rewrite (py_strip_not_text_like _ Htext).
      exists AttributeError. split; [reflexivity | now left].
Qed.

Lemma segment_rows_fail (segments : list JValue) :
  forall idx : nat,
    forallb segment_ok segments = false ->
    exists e,
      segment_rows (Z.of_nat idx) segments = Raise e
      /\ (e = AttributeError \/ e = OverflowError).
Proof.
  induction segments as [| segment rest IH]; intros idx H;
    [discriminate H |].
  cbn [forallb] in H. cbn [segment_rows].
  destruct (segment_ok segment) eqn:Hs.
  - rewrite (segment_row_ok _ _ Hs). cbn [bind].
    replace (Z.of_nat idx + 1) with (Z.of_nat (S idx)) by lia.
    destruct (IH (S idx) H) as (e & -> & He). now exists e.
  - destruct (segment_row_fails (Z.of_nat idx) _ Hs) as (e & -> & He).
    now exists e.
Qed.

(** X4: [build_segments_table] builds the table exactly when every segment
    is an object whose text is falsy or a string and whose times do not
    overflow; one segment that is not makes the whole call raise
    [AttributeError] or [OverflowError], and no table comes back. *)
Theorem build_segments_table_all_or_nothing (segments : list JValue) :
  if forallb segment_ok segments
  then build_segments_table segments = Ok (segments_table segments)
  else exists e,
         build_segments_table segments = Raise e
         /\ (e = AttributeError \/ e = OverflowError).
Proof.
  destruct (forallb segment_ok segments) eqn:H.
  - now apply build_segments_table_ok.
  - unfold build_segments_table. change 1 with (Z.of_nat 1).
    destruct (segment_rows_fail _ 1%nat H) as (e & -> & He). now exists e.
Qed.

Lemma segment_row_cells (idx : Z) (segment : JValue) (row : list string) :
  segment_row idx segment = Ok row ->
  exists start end_ text_, row = [str_of_int idx; start; end_; text_].
Proof.
  unfold segment_row, bind.
  destruct (py_get segment "start"); [| discriminate].
  destruct (format_seconds _) as [start |]; [| discriminate].
  destruct (py_get segment "end"); [| discriminate].
  destruct (format_seconds _) as [end_ |]; [| discriminate].
  destruct (py_get segment "text"); [| discriminate].
  destruct (py_strip _) as [text_ |]; [| discriminate].
  intro H. injection H as <-. now exists start, end_, text_.
Qed.

Lemma segment_rows_cells (segments : list JValue) :
  forall (idx : Z) (rows : list (list string)),
    segment_rows idx segments = Ok rows ->
    List.length rows = List.length segments
    /\ forall (i : nat) (row : list string),
         nth_error rows i = Some row ->
         exists start end_ text_,
           row = [str_of_int (idx + Z.of_nat i); start; end_; text_].
Proof.
  induction segments as [| segment rest IH]; intros idx rows H.
  - injection H as <-. split; [reflexivity |].
    intros [| i] row Hi; discriminate Hi.
  - cbn [segment_rows] in H. unfold bind in H.
    destruct (segment_row idx segment) as [row0 |] eqn:Hrow; [| discriminate].
    destruct (segment_rows (idx + 1) rest) as [rows' |] eqn:Hrows;
      [| discriminate].
    injection H as <-. destruct (IH _ _ Hrows) as [Hlen Hnth].
    split; [simpl; now rewrite Hlen |].
    intros [| i] row Hi.
    + injection Hi as <-. rewrite Z.add_0_r.
      exact (segment_row_cells _ _ _ Hrow).
    + destruct (Hnth i row Hi) as (a & b & c & ->).
      exists a, b, c. do 2 f_equal. lia.
Qed.

(** X5: a table that [build_segments_table] returns has the title
    [Segments], the four columns [#], [Start], [End] and [Text], and one row
    of four cells for each segment, in order, whose first cell is the
    position of the segment counted from 1. *)
Theorem build_segments_table_rows
    (segments : list JValue) (table : Renderable) :
  build_segments_table segments = Ok table ->
  exists rows,
    table = Table "Segments" ["#"; "Start"; "End"; "Text"] rows
    /\ List.length rows = List.length segments
    /\ forall (i : nat) (row : list string),
         nth_error rows i = Some row ->
         exists start end_ text_,
           row = [str_of_int (Z.of_nat i + 1); start; end_; text_].
Proof.
  unfold build_segments_table, bind.
  destruct (segment_rows 1 segments) as [rows |] eqn:Hrows; [| discriminate].
  intro H. injection H as <-. exists rows.
  destruct (segment_rows_cells _ _ _ Hrows) as [Hlen Hnth].
  split; [reflexivity | split; [exact Hlen |]].
  intros i row Hi. destruct (Hnth i row Hi) as (a & b & c & ->).
  exists a, b, c. do 2 f_equal. lia.
Qed.

Lemma build_segments_table_rows_witness :
  exists rows,
    Table "Segments" ["#"; "Start"; "End"; "Text"]
      [["1"; "00:01.000"; "00:02.500"; "a"]; ["2"; "-"; "-"; ""]]
    = Table "Segments" ["#"; "Start"; "End"; "Text"] rows
    /\ List.length rows = 2%nat
    /\ forall (i : nat) (row : list string),
         nth_error rows i = Some row ->
         exists start end_ text_,
           row = [str_of_int (Z.of_nat i + 1); start; end_; text_].
Proof.
  apply (build_segments_table_rows
           [JDict [("start", JFloat 1.0); ("end", JFloat 2.5);
                   ("text", JStr " a ")];
            JDict []]).
  vm_compute. reflexivity.
Defined.

(** ** The renderer *)

Lemma read_payload_raises (response : Response) (e : Exc) :
  read_payload response = Raise e ->
  json response = Raise e
  /\ (declared_json response = true \/ e <> JSONDecodeError).
Proof.
  unfold read_payload, response_json.
  destruct (declared_json response), (json response) as [v | e'];
    intro H; try discriminate H.
  - injection H as <-. auto.
  - destruct e'; try discriminate H; injection H as <-;
      (split; [reflexivity | right; discriminate]).
Qed.

(** The second half of [print_result], for a result that is a [dict]. *)
Lemma render_result_cases (console : Console) (payload : JValue)
    (result : list (string * JValue)) :
  exists transcript,
    transcript_shape transcript
    /\ ((exists closing,
            render_result console payload result
            = ((transcript ++ [closing])%list, Ok tt)
            /\ is_table closing || is_raw_json closing = true)
        \/ (exists e,
               render_result console payload result = (transcript, Raise e)
               /\ (e = AttributeError \/ e = OverflowError
                   \/ e = MarkupError))).
Proof.
  unfold render_result. cbv zeta.
  destruct (text_like (dict_get result "text")) eqn:Htext.
  - rewrite (render_transcript console result Htext).
    exists (transcript_of result). split.
    + unfold transcript_of, transcript_shape.
      destruct (dict_get result "text"); auto.
      destruct (String.eqb s ""); eauto.
    + destruct (dict_get result "segments")
        as [ | b | n | x | s | [| seg rest] | d];
        try (left; exists (Print (raw_json payload));
             rewrite print_raw_json; split; reflexivity).
      destruct (forallb segment_ok (seg :: rest)) eqn:Hsegs.
      * rewrite (print_segments_table _ _ Hsegs).
        destruct (forallb
                    (fun segment => markup console (segment_text segment))
                    (seg :: rest)).
        -- left. exists (Print (segments_table (seg :: rest))).
           split; reflexivity.
        -- right. exists MarkupError. cbn [mbind]. rewrite app_nil_r. auto.
      * right. unfold build_segments_table. change 1 with (Z.of_nat 1).
        destruct (segment_rows_fail _ 1%nat Hsegs) as (e & -> & He).
        exists e. cbn. rewrite app_nil_r. split; [reflexivity | tauto].
  - exists []. split; [now left |]. right. exists AttributeError.
    split; [| now left].
    unfold text_like in Htext. apply orb_false_elim in Htext.
    destruct Htext as [Ht Hs]. apply negb_false_iff in Ht. rewrite Ht.
    destruct (dict_get result "text"); try discriminate Hs; reflexivity.
Qed.

Lemma print_result_cases (console : Console) (response : Response)
    (elapsed : float) :
  Rendering console response (Print (summary_panel response elapsed))
    (print_result console response elapsed).
Proof.
  destruct (read_payload response) as [payload | e] eqn:Hp.
  - destruct (is_str payload) eqn:Hs.
    + destruct payload as [ | | | | s | | ]; try discriminate Hs.
      rewrite (print_result_string _ _ _ _ Hp).
      destruct (markup console (strip s)) eqn:Hm.
      * now apply RenderingString.
      * now apply (RenderingStringRejected _ _ _ s).
    + rewrite (print_result_render _ _ _ _ Hp Hs). unfold render_payload.
      assert (Hraw : Rendering console response
                       (Print (summary_panel response elapsed))
                       (emit (Print (summary_panel response elapsed)) ;;;
                        console_print console (raw_json payload))).
      { rewrite print_raw_json.
        apply (RenderingDone _ _ _ payload [] (Print (raw_json payload)));
          auto. now left. }
      destruct (extract_result payload) as [ | | | | | | result];
        try exact Hraw.
      destruct (render_result_cases console payload result)
        as (transcript & Hshape & [(closing & -> & Hc) | (e & -> & He)]).
      * now apply (RenderingDone _ _ _ payload).
      * now apply (RenderingFailed _ _ _ payload).
  - rewrite (print_result_unread _ _ _ _ Hp).
    destruct (read_payload_raises _ _ Hp) as [Hj He].
    now apply RenderingUndecoded.
Qed.

(** X6: [print_result] shows the request summary first, then at most one
    transcript panel, then at most one closing panel, which is the segment
    table or the formatted JSON; when it returns, it has shown something
    after the summary, and when it raises, it has shown no closing panel. *)
Theorem print_result_output_shape (console : Console) (response : Response)
    (elapsed : float) :
  exists transcript closing,
    trace (print_result console response elapsed)
    = (Print (summary_panel response elapsed) :: transcript ++ closing)%list
    /\ (List.length transcript <= 1)%nat
    /\ forallb is_transcript transcript = true
    /\ (List.length closing <= 1)%nat
    /\ forallb (fun e => is_table e || is_raw_json e) closing = true
    /\ match outcome (print_result console response elapsed) with
       | Ok _ => (transcript ++ closing)%list <> []
       | Raise _ => closing = []
       end.
Proof.
  destruct (print_result_cases console response elapsed)
    as [ e _ _ | s _ _ | s _ _ | payload transcript closing _ _ Hshape Hc
       | payload transcript e _ _ Hshape He].
  - exists [], []. cbn. repeat split; auto.
  - exists [Print (Panel (Markup (strip s)) "Transcript")], []. cbn.
    repeat split; auto. discriminate.
  - exists [], []. cbn. repeat split; auto.
  - exists transcript, [closing]. cbn [trace fst outcome snd].
    split; [reflexivity |].
    destruct Hshape as [-> | (s & ->)]; cbn; rewrite Hc;
      repeat split; auto; discriminate.
  - exists transcript, []. cbn [trace fst outcome snd].
    rewrite app_nil_r. split; [reflexivity |].
    destruct Hshape as [-> | (s & ->)]; cbn; repeat split; auto.
Qed.

(** X7: an exception that leaves [print_result] is the one that
    [response.json()] raised, a [json.JSONDecodeError] only under a declared
    JSON content type; or the [MarkupError] of a plain string that the
    console rejects; or, for a document that is not a plain string, an
    [AttributeError], an [OverflowError] or a [MarkupError]. *)
Theorem print_result_raises (console : Console) (response : Response)
    (elapsed : float) (e : Exc) :
  outcome (print_result console response elapsed) = Raise e ->
  (json response = Raise e
   /\ (declared_json response = true \/ e <> JSONDecodeError))
  \/ (exists s,
         read_payload response = Ok (JStr s)
         /\ markup console (strip s) = false
         /\ e = MarkupError)
  \/ (exists payload,
         read_payload response = Ok payload
         /\ is_str payload = false
         /\ (e = AttributeError \/ e = OverflowError \/ e = MarkupError)).
Proof.
  destruct (print_result_cases console response elapsed)
    as [ e0 Hj He | s _ _ | s Hp Hm | payload transcript closing _ _ _ _
       | payload transcript e0 Hp Hs _ He];
    cbn [outcome snd]; intro H; try discriminate H; injection H as <-.
  - now left.
  - right. left. now exists s.
  - right. right. now exists payload.
Qed.

Lemma print_result_raises_witness :
  (json latin1_response = Raise UnicodeDecodeError
   /\ (declared_json latin1_response = true
       \/ UnicodeDecodeError <> JSONDecodeError))
  \/ (exists s,
         read_payload latin1_response = Ok (JStr s)
         /\ markup tag_console (strip s) = false
         /\ UnicodeDecodeError = MarkupError)
  \/ (exists payload,
         read_payload latin1_response = Ok payload
         /\ is_str payload = false
         /\ (UnicodeDecodeError = AttributeError
             \/ UnicodeDecodeError = OverflowError
             \/ UnicodeDecodeError = MarkupError)).
Proof.
  apply (print_result_raises tag_console latin1_response 0.5
           UnicodeDecodeError).
  reflexivity.
Defined.

(** ** The run *)

Lemma filter_prints (P : Effect -> bool) (t : list Effect) :
  (forall r, P (Print r) = false) ->
  forallb is_print t = true -> filter P t = [].
Proof.
  intros HP. induction t as [| e t IH]; [reflexivity |].
  destruct e; simpl; try discriminate. rewrite HP. exact IH.
Qed.

(** X8: a run makes at most one HTTP request: none when [main] returns 2,
    exactly one when it returns 0, and a failed request is not tried
    again. *)
Theorem main_request_count (args : Args) (env : Env) :
  (List.length (filter is_post (trace (main args env))) <= 1)%nat
  /\ (outcome (main args env) = Ok 2 ->
      filter is_post (trace (main args env)) = [])
  /\ (forall code,
         outcome (main args env) = Ok code -> code <> 2 ->
         exists request, filter is_post (trace (main args env)) = [request]).
Proof.
  assert (Hprints : forall response,
             filter is_post
               (trace (print_result (new_console env) response
                         (measured env)))
             = [])
    by (intro r; apply filter_prints;
        [reflexivity | apply prints_print_result]).
  by_run args env; unfold request_effects, the_post;
    rewrite ?filter_app; cbn [filter is_post app List.length cleanup_trace];
    rewrite ?filter_app, ?Hprints;
    cbn [filter is_post app List.length];
    (split; [lia | split]);
    try (intros; reflexivity);
    try (intro Hc; discriminate Hc);
    try (intros code Hc Hne; injection Hc as <-; congruence);
    try (intros code Hc; discriminate Hc);
    try (intros; eexists; reflexivity);
    destruct (outcome (print_result _ _ _)); intro Hc; discriminate Hc.
Qed.

Lemma main_request_count_witness :
  exists request,
    filter is_post (trace (main m4a_args working_env)) = [request].
Proof.
  apply (proj2 (proj2 (main_request_count m4a_args working_env)) 0).
  - reflexivity.
  - discriminate.
Defined.

Lemma open_after_app (t t' : list Effect) :
  forall open, open_after open (t ++ t') = open_after (open_after open t) t'.
Proof.
  induction t as [| e t IH]; intro open; [reflexivity |].
  destruct e; simpl; apply IH.
Qed.

Lemma open_after_prints (t : list Effect) (open : list Path) :
  forallb is_print t = true -> open_after open t = open.
Proof.
  induction t as [| e t IH]; [reflexivity |].
  destruct e; simpl; try discriminate. exact IH.
Qed.

Lemma open_after_cleanup (temp_dir : option string) (open : list Path) :
  open_after open (cleanup_trace temp_dir) = open.
Proof. destruct temp_dir; reflexivity. Qed.

Lemma open_after_request (args : Args) (upload_path : Path) :
  open_after [] (request_effects args upload_path) = [].
Proof.
  unfold request_effects, the_post. cbn.
  destruct (path_dec upload_path upload_path); [reflexivity | congruence].
Qed.

(** X9: the file that [main] opens for the upload is closed again on every
    path, also when the request fails or the response is an error: no file
    is left open at the end of a run, and none is opened when [main]
    returns 2. *)
Theorem main_closes_upload (args : Args) (env : Env) :
  open_after [] (trace (main args env)) = []
  /\ (outcome (main args env) = Ok 2 ->
      existsb is_open (trace (main args env)) = false).
Proof.
  by_run args env;
    (split;
     [ rewrite ?open_after_app; cbn [open_after app cleanup_trace];
       rewrite ?open_after_app, ?open_after_request, ?open_after_cleanup;
       cbn [open_after];
       rewrite ?open_after_prints by apply prints_print_result;
       reflexivity
     | try reflexivity; try (intro Hc; discriminate Hc);
       destruct (outcome (print_result _ _ _)); intro Hc; discriminate Hc ]).
Qed.

(** X10: [main] ends with the status 0, 1 or 2.  An exception that leaves
    it is the [MarkupError] of a panel that the console rejects, or what
    [expanduser], [is_file], [TemporaryDirectory] or [subprocess.run]
    raised, or the [OSError] of the file that cannot be opened, or what
    [client.post] raised, unless that is an [httpx.RequestError], which is
    always handled, or what [print_result] raised for a response without an
    error status. *)
Theorem main_exit_status (args : Args) (env : Env) :
  (exit_status (main args env) = 0 \/ exit_status (main args env) = 1
   \/ exit_status (main args env) = 2)
  /\ (forall e,
         outcome (main args env) = Raise e ->
         e = MarkupError
         \/ expanduser env (file args) = Raise e
         \/ (exists file_path,
                expanduser env (file args) = Ok file_path
                /\ is_file env file_path = Raise e)
         \/ mkdtemp env = Raise e
         \/ (exists cmd, run env cmd = Raise e)
         \/ e = OSError
         \/ (exists upload_path,
                answer env args upload_path = Raise e
                /\ forall msg, e <> RequestError msg)
         \/ (exists upload_path response,
                answer env args upload_path = Ok response
                /\ is_error response = false
                /\ outcome (print_result (new_console env) response
                              (measured env))
                   = Raise e)).
Proof.
  split.
  - unfold exit_status. by_run args env; auto;
      destruct (outcome (print_result _ _ _)); auto.
  - intro e. by_run args env; intro Hexc; try discriminate Hexc;
      try (injection Hexc as <-; eauto 12; fail).
    all: destruct (outcome (print_result _ _ _)) eqn:Hp;
      try discriminate Hexc; injection Hexc as <-;
      do 7 right; eauto.
Qed.

Lemma main_exit_status_witness :
  InvalidURL = MarkupError
  \/ expanduser invalid_url_env (file wav_args) = Raise InvalidURL
  \/ (exists file_path,
         expanduser invalid_url_env (file wav_args) = Ok file_path
         /\ is_file invalid_url_env file_path = Raise InvalidURL)
  \/ mkdtemp invalid_url_env = Raise InvalidURL
  \/ (exists cmd, run invalid_url_env cmd = Raise InvalidURL)
  \/ InvalidURL = OSError
  \/ (exists upload_path,
         answer invalid_url_env wav_args upload_path
         = Raise InvalidURL
         /\ forall msg, InvalidURL <> RequestError msg)
  \/ (exists upload_path response,
         answer invalid_url_env wav_args upload_path
         = Ok response
         /\ is_error response = false
         /\ outcome (print_result tag_console response
                       (measured invalid_url_env))
            = Raise InvalidURL).
Proof.
  apply (proj2 (main_exit_status wav_args invalid_url_env) InvalidURL).
  reflexivity.
Defined.

(** X11: the transcoder is started at most once, and only for a source
    that exists, is not WAV, with conversion allowed and [ffmpeg] found; the
    command is the fixed one, from the source to the file in the temporary
    directory. *)
Theorem main_transcoder_runs (args : Args) (env : Env) :
  (List.length (filter is_run (trace (main args env))) <= 1)%nat
  /\ (forall cmd,
         In (Run cmd) (trace (main args env)) ->
         exists file_path temp_dir,
           expanduser env (file args) = Ok file_path
           /\ mkdtemp env = Ok temp_dir
           /\ cmd = convert_cmd env temp_dir file_path
           /\ is_file env file_path = Ok true
           /\ is_wav file_path = false
           /\ no_convert args = false
           /\ nonempty (which env "ffmpeg") = true).
Proof.
  assert (Hprints : forall response,
             filter is_run
               (trace (print_result (new_console env) response
                         (measured env)))
             = [])
    by (intro r; apply filter_prints;
        [reflexivity | apply prints_print_result]).
  split.
  - by_run args env; unfold request_effects, the_post;
      rewrite ?filter_app; cbn [filter is_run app List.length cleanup_trace];
      rewrite ?filter_app, ?Hprints;
      cbn [filter is_run app List.length]; lia.
  - intros cmd Hrun. by_run args env; in_trace Hrun;
      try discriminate Hrun;
      try (apply (prints_not_other _ _ (prints_print_result _ _ _)) in Hrun;
           discriminate Hrun).
    all: injection Hrun as <-; do 2 eexists; repeat split; eassumption.
Qed.

Lemma main_transcoder_runs_witness :
  exists file_path temp_dir,
    expanduser failing_env (file m4a_args) = Ok file_path
    /\ mkdtemp failing_env = Ok temp_dir
    /\ convert_cmd failing_env "/tmp/tmpk3v9" (file m4a_args)
       = convert_cmd failing_env temp_dir file_path
    /\ is_file failing_env file_path = Ok true
    /\ is_wav file_path = false
    /\ no_convert m4a_args = false
    /\ nonempty (which failing_env "ffmpeg") = true.
Proof.
  apply (proj2 (main_transcoder_runs m4a_args failing_env)).
  vm_compute. right. left. reflexivity.
Defined.

(** ** White space *)

Lemma lstrip_blank (s : string) : all_space s = true -> lstrip s = "".
Proof.
  induction s as [| c s IH]; [reflexivity |].
  unfold all_space. cbn. intro H. apply andb_prop in H.
  destruct H as [Hc Hs]. rewrite Hc. exact (IH Hs).
Qed.

Lemma lstrip_head (s : string) :
  match lstrip s with
  | String c _ => isspace c = false
  | EmptyString => all_space s = true
  end.
Proof.
  induction s as [| c s IH]; [reflexivity |].
  cbn [lstrip]. destruct (isspace c) eqn:Hc; [| exact Hc].
  destruct (lstrip s); [| exact IH].
  unfold all_space in *. cbn. now rewrite Hc.
Qed.

Lemma rstrip_empty (s : string) : rstrip s = "" -> all_space s = true.
Proof.
  induction s as [| c s IH]; [reflexivity |].
  cbn [rstrip]. destruct (rstrip s); [| discriminate].
  destruct (isspace c) eqn:Hc; [| discriminate].
  intros _. unfold all_space in *. cbn. now rewrite Hc, IH.
Qed.

(** [strip] gives the empty string for white space and for nothing else. *)
Lemma strip_blank (s : string) : strip s = "" <-> all_space s = true.
Proof.
  unfold strip. split.
  - intro H. apply rstrip_empty in H. pose proof (lstrip_head s) as Hh.
    destruct (lstrip s) as [| c r]; [exact Hh |].
    unfold all_space in H. cbn in H. rewrite Hh in H. discriminate H.
  - intro H. now rewrite (lstrip_blank _ H).
Qed.

(** X12: a response with an error status is reported, not rendered: once
    the temporary directory is released, the panel of the status line is
    printed, with the stripped text of the response as its markup, or a
    placeholder when that text is empty or white space, so that the markup
    is never the empty string.  [main] returns 1 when the console shows the
    panel, and raises [MarkupError] when it rejects the body or the status
    line. *)
Theorem main_reports_http_error (args : Args) (env : Env) (file_path : Path)
    (t : list Effect) (upload_path : Path) (temp_dir : option string)
    (response : Response) :
  located args env file_path true ->
  prepare_audio env (new_console env) file_path (negb (no_convert args))
  = (t, Ok (Some upload_path, temp_dir)) ->
  renders (new_console env) (whisper_asr_panel args file_path upload_path)
  = true ->
  can_open env upload_path = true ->
  answer env args upload_path = Ok response ->
  is_error response = true ->
  exists body,
    http_error_panel response
    = Panel (Markup body)
        ("HTTP " ++ str_of_int (status_code response) ++ " "
         ++ reason_phrase response)
    /\ body = (if all_space (text response) then "(empty response body)"
               else strip (text response))
    /\ body <> ""
    /\ main args env
       = if renders (new_console env) (http_error_panel response)
         then ((t ++ Print (whisper_asr_panel args file_path upload_path)
                  :: request_effects args upload_path
                  ++ cleanup_trace temp_dir
                  ++ [Print (http_error_panel response)])%list,
               Ok 1)
         else ((t ++ Print (whisper_asr_panel args file_path upload_path)
                  :: request_effects args upload_path
                  ++ cleanup_trace temp_dir)%list,
               Raise MarkupError).
Proof.
  intros Hloc Hp Hasr Hopen Ha He.
  assert (Hmain : main args env
                  = if renders (new_console env) (http_error_panel response)
                    then ((t ++ Print (whisper_asr_panel args file_path
                                         upload_path)
                             :: request_effects args upload_path
                             ++ cleanup_trace temp_dir
                             ++ [Print (http_error_panel response)])%list,
                          Ok 1)
                    else ((t ++ Print (whisper_asr_panel args file_path
                                         upload_path)
                             :: request_effects args upload_path
                             ++ cleanup_trace temp_dir)%list,
                          Raise MarkupError)).
  { rewrite (main_prepared _ _ _ _ _ _ Hloc Hp).
    rewrite (transcribe_http_error _ _ _ _ _ _ Hasr Hopen _ Ha He).
    destruct (renders _ (http_error_panel response)); reflexivity. }
  unfold http_error_panel at 1.
  destruct (all_space (text response)) eqn:Hs.
  - apply strip_blank in Hs. rewrite Hs. cbn [String.eqb].
    exists "(empty response body)".
    split; [reflexivity | split; [reflexivity | split; [discriminate |]]].
    exact Hmain.
  - assert (Hne : strip (text response) <> "")
      by (intro Hc; apply strip_blank in Hc; congruence).
    pose proof Hne as Hneb. apply String.eqb_neq in Hneb. rewrite Hneb.
    exists (strip (text response)).
    split; [reflexivity | split; [reflexivity | split; [exact Hne |]]].
    exact Hmain.
Qed.

Lemma main_reports_http_error_witness :
  exists body,
    http_error_panel not_found_response
    = Panel (Markup body) "HTTP 404 Not Found"
    /\ body = "File Not Found"
    /\ body <> ""
    /\ main m4a_args (sample_env true ffmpeg_path 0 (Ok not_found_response))
       = (([MkTemp "/tmp/tmpk3v9";
            Run (convert_cmd working_env "/tmp/tmpk3v9" (file m4a_args));
            Print (preparing_audio_panel
                     (converted_path "/tmp/tmpk3v9" (file m4a_args)))]
           ++ Print (whisper_asr_panel m4a_args (file m4a_args)
                       (converted_path "/tmp/tmpk3v9" (file m4a_args)))
              :: request_effects m4a_args
                   (converted_path "/tmp/tmpk3v9" (file m4a_args))
              ++ cleanup_trace (Some "/tmp/tmpk3v9")
              ++ [Print (http_error_panel not_found_response)])%list,
          Ok 1).
Proof.
  apply (main_reports_http_error m4a_args
           (sample_env true ffmpeg_path 0 (Ok not_found_response))
           (file m4a_args)
           [MkTemp "/tmp/tmpk3v9";
            Run (convert_cmd working_env "/tmp/tmpk3v9" (file m4a_args));
            Print (preparing_audio_panel
                     (converted_path "/tmp/tmpk3v9" (file m4a_args)))]
           (converted_path "/tmp/tmpk3v9" (file m4a_args))
           (Some "/tmp/tmpk3v9") not_found_response);
    [split; reflexivity | reflexivity ..].
Defined.

(** X13: a text that consists of white space only counts as text: the
    renderer shows a transcript panel for it, and the panel is blank. *)
Theorem render_result_blank_transcript (console : Console) (payload : JValue)
    (result : list (string * JValue)) (s : string) :
  dict_get result "text" = JStr s ->
  s <> "" ->
  all_space s = true ->
  exists rest,
    trace (render_result console payload result)
    = Print (Panel (RichText "") "Transcript") :: rest.
Proof.
  intros Ht Hne Hs. unfold render_result. cbv zeta.
  rewrite (render_transcript console result)
    by (unfold text_like; rewrite Ht; apply orb_true_r).
  unfold transcript_of. rewrite Ht.
  apply String.eqb_neq in Hne. rewrite Hne.
  rewrite (proj2 (strip_blank s) Hs), trace_mbind. cbn [trace fst app].
  eexists. reflexivity.
Qed.

Lemma render_result_blank_transcript_witness :
  exists rest,
    trace (render_result tag_console (JDict [("text", JStr "  ")])
             [("text", JStr "  ")])
    = Print (Panel (RichText "") "Transcript") :: rest.
Proof.
  apply (render_result_blank_transcript tag_console _ _ "  ");
    [reflexivity | discriminate | reflexivity].
Defined.

(** ** Paths and the preparation of the audio *)

Lemma lower_char_dot (c : ascii) :
  Ascii.eqb (lower_char c) "." = Ascii.eqb c ".".
Proof. destruct c as [[|] [|] [|] [|] [|] [|] [|] [|]]; reflexivity. Qed.

Lemma rfind_lower (s : string) : rfind "." (lower s) = rfind "." s.
Proof.
  induction s as [| c s IH]; [reflexivity |].
  cbn [lower rfind]. now rewrite IH, lower_char_dot.
Qed.

Lemma length_lower (s : string) : String.length (lower s) = String.length s.
Proof. induction s as [| c s IH]; simpl; [reflexivity | now rewrite IH]. Qed.

Lemma substring_lower (s : string) :
  forall n m, substring n m (lower s) = lower (substring n m s).
Proof.
  induction s as [| c s IH]; intros [| n] [| m]; cbn; try reflexivity;
    now rewrite IH.
Qed.

Lemma suffix_lower (p : Path) :
  lower (suffix p)
  = suffix {| location := location p; name := lower (name p) |}.
Proof.
  unfold suffix, suffix_start. cbn [name].
  rewrite rfind_lower, length_lower.
  destruct (rfind "." (name p)) as [i |]; [| reflexivity].
  destruct ((0 <? i)%nat && (i <? String.length (name p) - 1)%nat);
    [| reflexivity].
  now rewrite substring_lower.
Qed.

(** X14: the test for a WAV file looks at the file name without regard to
    case: two paths whose names agree up to case are both WAV or both
    not. *)
Theorem is_wav_ignores_case (p q : Path) :
  lower (name p) = lower (name q) -> is_wav p = is_wav q.
Proof.
  intro H. unfold is_wav. rewrite !suffix_lower.
  unfold suffix, suffix_start. cbn [name]. now rewrite H.
Qed.

Lemma is_wav_ignores_case_witness :
  is_wav {| location := "workspace/"; name := "Take.1.WaV" |}
  = is_wav {| location := "/srv/audio/"; name := "take.1.wav" |}.
Proof. apply is_wav_ignores_case. reflexivity. Defined.

Lemma suffix_start_wav (s : string) :
  s <> "" -> suffix_start (s ++ ".wav") = Some (String.length s).
Proof.
  intro Hs. unfold suffix_start.
  rewrite rfind_dot_wav, length_append. cbn [String.length].
  assert (Hlen : (0 < String.length s)%nat)
    by (destruct s; [congruence | simpl; lia]).
  replace ((0 <? String.length s)%nat) with true
    by (symmetry; apply Nat.ltb_lt; exact Hlen).
  replace ((String.length s <? String.length s + 4 - 1)%nat) with true
    by (symmetry; apply Nat.ltb_lt; lia).
  reflexivity.
Qed.

Lemma substring_prefix (s t : string) :
  substring 0 (String.length s) (s ++ t) = s.
Proof.
  induction s as [| c s IH]; simpl.
  - destruct t; reflexivity.
  - now rewrite IH.
Qed.

(** X15: the converted file keeps the stem of the source: it lies in the
    temporary directory, its stem is that of the source and its suffix is
    [.wav], so that it passes the test for a WAV file. *)
Theorem converted_path_keeps_stem (temp_dir : string) (file_path : Path) :
  name file_path <> "" ->
  location (converted_path temp_dir file_path) = temp_dir ++ "/"
  /\ stem (converted_path temp_dir file_path) = stem file_path
  /\ suffix (converted_path temp_dir file_path) = ".wav"
  /\ is_wav (converted_path temp_dir file_path) = true.
Proof.
  intro Hname. pose proof (stem_nonempty _ Hname) as Hstem.
  unfold converted_path, path_in.
  split; [reflexivity | split; [| split]].
  - unfold stem at 1. cbn [name]. rewrite (suffix_start_wav _ Hstem).
    apply substring_prefix.
  - unfold suffix. cbn [name]. rewrite (suffix_start_wav _ Hstem).
    rewrite length_append. cbn [String.length].
    replace (String.length (stem file_path) + 4
             - String.length (stem file_path))%nat with 4%nat by lia.
    rewrite substring_skip. reflexivity.
  - now apply is_wav_converted.
Qed.

Lemma converted_path_keeps_stem_witness :
  location (converted_path "/tmp/tmpk3v9"
              {| location := "workspace/"; name := "talk.2025.m4a" |})
  = "/tmp/tmpk3v9/"
  /\ stem (converted_path "/tmp/tmpk3v9"
             {| location := "workspace/"; name := "talk.2025.m4a" |})
     = "talk.2025"
  /\ suffix (converted_path "/tmp/tmpk3v9"
               {| location := "workspace/"; name := "talk.2025.m4a" |})
     = ".wav"
  /\ is_wav (converted_path "/tmp/tmpk3v9"
               {| location := "workspace/"; name := "talk.2025.m4a" |})
     = true.
Proof.
  apply (converted_path_keeps_stem "/tmp/tmpk3v9"
           {| location := "workspace/"; name := "talk.2025.m4a" |}).
  discriminate.
Defined.

(** X16: [prepare_audio] makes no request.  It returns a temporary
    directory only together with the converted path inside it, and then
    that directory is the one still in use; when it returns no path, no
    directory is left in use; a WAV source is returned as it is, with
    nothing done.  When it raises, the exception is what
    [TemporaryDirectory] or [subprocess.run] raised or the [MarkupError] of
    a report that the console rejects, and in the last two cases the
    directory is left in use. *)
Theorem prepare_audio_handoff (env : Env) (console : Console)
    (file_path : Path) (allow : bool) :
  let t := trace (prepare_audio env console file_path allow) in
  existsb is_post t = false
  /\ match outcome (prepare_audio env console file_path allow) with
     | Ok (Some p, None) => p = file_path /\ is_wav file_path = true /\ t = []
     | Ok (Some p, Some d) =>
         mkdtemp env = Ok d /\ p = converted_path d file_path
         /\ is_wav file_path = false /\ allow = true
         /\ live_temps t = [d]
     | Ok (None, None) => is_wav file_path = false /\ live_temps t = []
     | Ok (None, Some _) => False
     | Raise e =>
         is_wav file_path = false /\ allow = true
         /\ ((mkdtemp env = Raise e /\ t = [])
             \/ exists d,
                  mkdtemp env = Ok d /\ live_temps t = [d]
                  /\ (run env (convert_cmd env d file_path) = Raise e
                      \/ e = MarkupError))
     end.
Proof.
  cbv zeta.
  destruct (is_wav file_path) eqn:Hw.
  { rewrite (prepare_audio_wav _ _ _ _ Hw). repeat split. }
  destruct allow.
  2: { rewrite (prepare_audio_unsupported _ _ _ Hw). repeat split. }
  destruct (nonempty (which env "ffmpeg")) eqn:Hf.
  2: { rewrite (prepare_audio_missing _ _ _ Hw Hf). repeat split. }
  destruct (mkdtemp env) as [d | e] eqn:Htemp.
  2: { rewrite (prepare_audio_no_temp _ _ _ Hw Hf _ Htemp).
       repeat split. now left. }
  assert (Hlive : forall rest,
             forallb is_print rest = true ->
             live_temps (MkTemp d :: Run (convert_cmd env d file_path) :: rest)
             = [d])
    by (intros rest Hrest; unfold live_temps; cbn [live_after];
        now apply live_after_prints).
  destruct (run env (convert_cmd env d file_path))
    as [[returncode stderr] | e] eqn:Hrun.
  2: { rewrite (prepare_audio_not_run _ _ _ Hw Hf _ Htemp _ Hrun).
       cbn [trace outcome fst snd].
       split; [reflexivity | split; [reflexivity | split; [reflexivity |]]].
       right. exists d. rewrite (Hlive []) by reflexivity. auto. }
  destruct (Z.eq_dec returncode 0) as [-> | Hrc].
  - rewrite (prepare_audio_converted _ _ _ Hw Hf _ Htemp _ Hrun).
    destruct (renders console (preparing_audio_panel _));
      cbn [trace outcome fst snd].
    + rewrite (Hlive [_]) by reflexivity. repeat split.
    + split; [reflexivity | split; [reflexivity | split; [reflexivity |]]].
      right. exists d. rewrite (Hlive []) by reflexivity. auto.
  - rewrite (prepare_audio_failed _ _ _ Hw Hf _ Htemp _ _ Hrun Hrc).
    destruct (renders console (conversion_error_panel stderr));
      cbn [trace outcome fst snd].
    + split; [reflexivity | split; [reflexivity |]].
      unfold live_temps. cbn.
      destruct (string_dec d d); [reflexivity | congruence].
    + split; [reflexivity | split; [reflexivity | split; [reflexivity |]]].
      right. exists d. rewrite (Hlive []) by reflexivity. auto.
Qed.

Lemma nonempty_some (v : option string) :
  nonempty v = true -> exists l, v = Some l /\ l <> "".
Proof.
  destruct v as [l |]; [| discriminate]. cbn. intro H.
  apply negb_true_iff, String.eqb_neq in H. now exists l.
Qed.

Lemma nonempty_none (v : option string) (l : string) :
  nonempty v = false -> v = Some l -> l = "".
Proof.
  intros H ->. cbn in H. now apply negb_false_iff, String.eqb_eq in H.
Qed.

(** Takes a membership in a list that is given item by item apart. *)
Ltac split_in H :=
  simpl in H;
  repeat match type of H with
    | _ \/ _ => destruct H as [H | H]
    | False => destruct H
    | (_, _) = (_, _) => injection H as <-
    end;
  try discriminate.

(** X17: the optional form fields carry the options as given: [language]
    and [prompt] are in the form exactly with the non-empty value of the
    option, and no field name occurs twice. *)
Theorem form_data_values (args : Args) :
  NoDup (keys (form_data args))
  /\ (forall v,
         In ("language", v) (form_data args) <->
         exists l, language args = Some l /\ l <> "" /\ v = Plain l)
  /\ (forall v,
         In ("prompt", v) (form_data args) <->
         exists l, prompt args = Some l /\ l <> "" /\ v = Plain l).
Proof.
  unfold form_data, keys.
  destruct (nonempty (language args)) eqn:Hl,
    (nonempty (prompt args)) eqn:Hq;
    cbn [app map fst];
    (split; [repeat constructor; simpl; intuition discriminate |]);
    split; intro v; split; intro H.
  all: try (split_in H;
            match goal with
            | Hn : nonempty ?o = true |- exists l, ?o = Some l /\ _ =>
                destruct (nonempty_some _ Hn) as (l & Ho & Hne);
                exists l; rewrite Ho; auto
            end; fail).
  all: try (destruct H as (l & Ho & Hne & ->);
            match goal with
            | Hn : nonempty ?o = false, Ho : ?o = Some _ |- _ =>
                destruct Hne; exact (nonempty_none _ _ Hn Ho)
            end; fail).
  all: destruct H as (l & Ho & Hne & ->); rewrite Ho; simpl; tauto.
Qed.

(** X18: a response without an error status is rendered last: by then the
    uploaded file is closed and the temporary directory released, so that a
    renderer that raises leaves nothing behind; [main] returns 0 exactly
    when the renderer returns, and lets its exception through otherwise. *)
Theorem main_renders_last (args : Args) (env : Env) (file_path : Path)
    (t : list Effect) (upload_path : Path) (temp_dir : option string)
    (response : Response) :
  located args env file_path true ->
  prepare_audio env (new_console env) file_path (negb (no_convert args))
  = (t, Ok (Some upload_path, temp_dir)) ->
  renders (new_console env) (whisper_asr_panel args file_path upload_path)
  = true ->
  can_open env upload_path = true ->
  answer env args upload_path = Ok response ->
  is_error response = false ->
  exists before,
    trace (main args env)
    = (before
       ++ trace (print_result (new_console env) response (measured env)))%list
    /\ live_temps before = []
    /\ open_after [] before = []
    /\ outcome (main args env)
       = match
           outcome (print_result (new_console env) response (measured env))
         with
         | Ok _ => Ok 0
         | Raise e => Raise e
         end.
Proof.
  intros Hloc Hp Hasr Hopen Ha He.
  pose proof (source_cases _ _ _ _ _ _ Hp) as Hsrc.
  rewrite (main_prepared _ _ _ _ _ _ Hloc Hp).
  rewrite (transcribe_rendered _ _ _ _ _ _ Hasr Hopen _ Ha He).
  cbn [trace outcome fst snd].
  exists (t ++ Print (whisper_asr_panel args file_path upload_path)
             :: request_effects args upload_path
             ++ cleanup_trace temp_dir)%list.
  split; [| split; [| split; [| reflexivity]]].
  - rewrite <- ?app_assoc. cbn [app]. rewrite <- ?app_assoc. reflexivity.
  - unfold live_temps. destruct Hsrc; cbn;
      [reflexivity |].
    match goal with
    | |- context [string_dec ?d ?d] =>
        destruct (string_dec d d); [reflexivity | congruence]
    end.
  - rewrite open_after_app.
    assert (Hpre : open_after [] t = []) by (destruct Hsrc; reflexivity).
    rewrite Hpre. cbn [open_after].
    now rewrite open_after_app, open_after_request, open_after_cleanup.
Qed.

Lemma main_renders_last_witness :
  exists before,
    trace (main m4a_args working_env)
    = (before
       ++ trace (print_result tag_console
                   (json_response hello_body hello_payload)
                   (measured working_env)))%list
    /\ live_temps before = []
    /\ open_after [] before = []
    /\ outcome (main m4a_args working_env)
       = match
           outcome (print_result tag_console
                      (json_response hello_body hello_payload)
                      (measured working_env))
         with
         | Ok _ => Ok 0
         | Raise e => Raise e
         end.
Proof.
  apply (main_renders_last m4a_args working_env (file m4a_args)
           [MkTemp "/tmp/tmpk3v9";
            Run (convert_cmd working_env "/tmp/tmpk3v9" (file m4a_args));
            Print (preparing_audio_panel
                     (converted_path "/tmp/tmpk3v9" (file m4a_args)))]
           (converted_path "/tmp/tmpk3v9" (file m4a_args))
           (Some "/tmp/tmpk3v9"));
    [split; reflexivity | reflexivity ..].
Defined.

(** X19: a segment whose [start], [end] and [text] are absent or [null]
    does not fail: its row has a dash for each time and a blank text. *)
Theorem segment_row_without_fields (idx : Z)
    (segment : list (string * JValue)) :
  dict_get segment "start" = JNull ->
  dict_get segment "end" = JNull ->
  dict_get segment "text" = JNull ->
  segment_row idx (JDict segment) = Ok [str_of_int idx; "-"; "-"; ""]
  /\ segment_ok (JDict segment) = true.
Proof.
  intros Hs He Ht. unfold segment_row, segment_ok. cbn [py_get bind].
  rewrite Hs, He, Ht. split; reflexivity.
Qed.

Lemma segment_row_without_fields_witness :
  segment_row 3 (JDict [("id", JInt 2); ("text", JNull)])
  = Ok ["3"; "-"; "-"; ""]
  /\ segment_ok (JDict [("id", JInt 2); ("text", JNull)]) = true.
Proof.
  apply (segment_row_without_fields 3 [("id", JInt 2); ("text", JNull)]);
    reflexivity.
Defined.
